(** * create-nodality: the project generator of [bin/index.js]

    A shallow embedding of the command-line generator and the properties
    its specification states about it.

    The program is a single synchronous script.  It talks to three parts
    of the Node.js runtime, each modelled here by an executable
    definition:

    - [path.resolve] (module [Path]): absolute paths are lists of
      components;
    - [fs.existsSync], [fs.mkdirSync], [fs.writeFileSync] (module [Fs]):
      the file system is a tree of directories and files, and a call
      fails only for a structural reason (a missing parent, an entry
      that is already there, a file where a directory is needed).
      Permissions, quotas and symbolic links are not modelled;
    - [child_process.execSync]: the two [npm] subprocesses are opaque.
      They are a variable [npm] of the development, a function from the
      command, its working directory and the file system it finds to
      the file system it leaves and its exit status.

    JavaScript strings are modelled by [string], read as the UTF-8
    bytes that [writeFileSync] puts on disk. *)

From Stdlib Require Import ZArith NArith Ascii String List Lia.
From stdpp Require Import base gmap strings list.

#[local] Set Warnings "-register-all".
#[local] Open Scope string_scope.
#[local] Open Scope list_scope.

(** ** Characters and strings *)

Definition LF : ascii := "010"%char.
Definition DQUOTE : ascii := "034"%char.
Definition BACKSLASH : ascii := "092"%char.
Definition ESC : ascii := "027"%char.

Definition dq : string := String DQUOTE "".
Definition nl : string := String LF "".

(** [q s] is [s] between double quotes, as it stands in a template. *)
Definition q (s : string) : string := dq +:+ s +:+ dq.

(** [Array.prototype.join] on strings. *)
Fixpoint join (sep : string) (l : list string) : string :=
  match l with
  | [] => ""
  | [s] => s
  | s :: r => s +:+ sep +:+ join sep r
  end.

(** A template literal given line by line. *)
Definition lines (l : list string) : string := join nl l.

Module JS.

(** The white space and line terminators of [String.prototype.trim]
    that are single bytes: TAB, LF, VT, FF, CR and SPACE.  The
    non-ASCII ones (U+00A0, U+FEFF, ...) are several bytes long and
    stand at neither end of a template of this program. *)
Definition isWhiteSpace (c : ascii) : bool :=
  let n := N_of_ascii c in
  ((9 <=? n) && (n <=? 13) || (n =? 32))%N.

Fixpoint trimStart (s : string) : string :=
  match s with
  | "" => ""
  | String c r => if isWhiteSpace c then trimStart r else s
  end.

Fixpoint trimEnd (s : string) : string :=
  match s with
  | "" => ""
  | String c r =>
      match trimEnd r with
      | "" => if isWhiteSpace c then "" else String c ""
      | r' => String c r'
      end
  end.

Definition trim (s : string) : string := trimStart (trimEnd s).

End JS.

(** ** JSON values and [JSON.stringify] *)

Module JSON.

(** The values the generator builds: strings and objects.  An object
    keeps its members in insertion order, which is the order
    [JSON.stringify] enumerates them in (no key of the manifest is an
    array index). *)
Inductive value : Type :=
| Str (s : string)
| Obj (members : list (string * value)).

Definition hexDigit (n : N) : ascii :=
  if (n <? 10)%N then ascii_of_N (48 + n) else ascii_of_N (87 + n).

(** One character of QuoteJSONString. *)
Definition quoteChar (c : ascii) : string :=
  let n := N_of_ascii c in
  if (n =? 8)%N then String BACKSLASH "b"
  else if (n =? 9)%N then String BACKSLASH "t"
  else if (n =? 10)%N then String BACKSLASH "n"
  else if (n =? 12)%N then String BACKSLASH "f"
  else if (n =? 13)%N then String BACKSLASH "r"
  else if (n =? 34)%N then String BACKSLASH dq
  else if (n =? 92)%N then String BACKSLASH (String BACKSLASH "")
  else if (n <? 32)%N then
    String BACKSLASH
      (String "u" (String "0" (String "0"
         (String (hexDigit (n / 16)) (String (hexDigit (n mod 16)) "")))))
  else String c "".

Fixpoint quoteBody (s : string) : string :=
  match s with
  | "" => ""
  | String c r => quoteChar c +:+ quoteBody r
  end.

Definition QuoteJSONString (s : string) : string :=
  dq +:+ quoteBody s +:+ dq.

(** SerializeJSONProperty and SerializeJSONObject of ECMA-262, on
    strings and objects. *)
Fixpoint SerializeJSONProperty (gap indent : string) (v : value) : string :=
  match v with
  | Str s => QuoteJSONString s
  | Obj members =>
      let stepback := indent in
      let indent := indent +:+ gap in
      let partial :=
        List.map (fun m : string * value =>
                    QuoteJSONString (fst m) +:+ ":" +:+
                    (if String.eqb gap "" then "" else " ") +:+
                    SerializeJSONProperty gap indent (snd m))
                 members in
      match partial with
      | [] => "{}"
      | _ =>
          if String.eqb gap "" then "{" +:+ join "," partial +:+ "}"
          else
            "{" +:+ nl +:+ indent +:+ join ("," +:+ nl +:+ indent) partial
                +:+ nl +:+ stepback +:+ "}"
      end
  end.

Fixpoint spaces (n : nat) : string :=
  match n with
  | O => ""
  | S k => String " " (spaces k)
  end.

(** [JSON.stringify(v, null, space)] for a numeric [space]. *)
Definition stringify (v : value) (space : nat) : string :=
  SerializeJSONProperty (spaces (Nat.min 10 space)) "" v.

(** Member access [o.k]. *)
Fixpoint get (k : string) (members : list (string * value)) : option value :=
  match members with
  | [] => None
  | (k', v) :: r => if String.eqb k k' then Some v else get k r
  end.

Definition field (k : string) (v : value) : option value :=
  match v with
  | Obj members => get k members
  | Str _ => None
  end.

Definition keys (v : value) : list string :=
  match v with
  | Obj members => List.map fst members
  | Str _ => []
  end.

End JSON.

(** ** The templates of [createProject] *)

Definition indexHtml (projectName : string) : string :=
  lines [
    "";
    "<!DOCTYPE html>";
    "<html lang=" +:+ q "en" +:+ ">";
    "<head>";
    "  <meta charset=" +:+ q "UTF-8" +:+ ">";
    "  <meta name=" +:+ q "viewport" +:+ " content=" +:+ q "width=device-width, initial-scale=1.0" +:+ ">";
    "  <title>" +:+ projectName +:+ "</title>";
    "";
    "  <!-- importmap to map " +:+ q "nodality" +:+ " to node_modules path -->";
    "  <script type=" +:+ q "importmap" +:+ ">";
    "  {";
    "    " +:+ q "imports" +:+ ": {";
    "      " +:+ q "nodality" +:+ ": " +:+ q "/node_modules/nodality/dist/index.esm.js";
    "    }";
    "  }";
    "  </script>";
    "</head>";
    "<body>";
    "  <div id=" +:+ q "mount" +:+ "></div>";
    "";
    "  <!-- User app -->";
    "  <script type=" +:+ q "module" +:+ " src=" +:+ q "src/app.js" +:+ "></script>";
    "</body>";
    "</html>";
    "  "
  ].

Definition appJs : string :=
  lines [
    "";
    "import { Des } from " +:+ q "nodality" +:+ ";           ";
    "";
    "const elements = [";
    "  { type: " +:+ q "h1" +:+ ", text: " +:+ q "Hello" +:+ " }";
    "];";
    "";
    "const nodes = [";
    "  { op: " +:+ q "blast" +:+ " }";
    "];";
    "";
    "new Des()";
    "  .nodes(nodes)";
    "  .add(elements)";
    "  .set({";
    "    mount: " +:+ q "#mount" +:+ ",";
    "    code: true,";
    "  });";
    "  "
  ].

Definition webpackConfig : string :=
  lines [
    "";
    "import path from " +:+ q "path" +:+ ";";
    "import { fileURLToPath } from " +:+ q "url" +:+ ";";
    "";
    "const __filename = fileURLToPath(import.meta.url);";
    "const __dirname = path.dirname(__filename);";
    "";
    "export default {";
    "  mode: " +:+ q "production" +:+ ",";
    "  entry: " +:+ q "nodality" +:+ ",               // bundle Nodality only";
    "  output: {";
    "    path: path.resolve(__dirname, " +:+ q "dist" +:+ "),";
    "    filename: " +:+ q "lib.bundle.js" +:+ ",";
    "    library: { type: " +:+ q "module" +:+ " },   // ESM output";
    "    environment: { module: true },";
    "    clean: true,";
    "    publicPath: " +:+ q "/" +:+ ",";
    "  },";
    "  experiments: { outputModule: true },";
    "  module: {";
    "    rules: [";
    "      {";
    "        test: /\.m?js$/,";
    "        exclude: /node_modules/,";
    "        use: { loader: " +:+ q "babel-loader" +:+ ", options: { presets: [" +:+ q "@babel/preset-env" +:+ "] } },";
    "      },";
    "    ],";
    "  },";
    "};";
    "  "
  ].

Definition pkg (projectName : string) : JSON.value :=
  JSON.Obj [
    ("name", JSON.Str projectName);
    ("version", JSON.Str "1.0.0");
    ("type", JSON.Str "module");
    ("scripts", JSON.Obj [
       ("build", JSON.Str "webpack --config webpack.config.js");
       ("watch", JSON.Str "webpack --watch --config webpack.config.js");
       ("start", JSON.Str "live-server . --port=4000 --watch=dist,src");
       ("dev", JSON.Str "npm-run-all --parallel watch start")
     ]);
    ("dependencies", JSON.Obj [
       ("nodality", JSON.Str "latest")
     ]);
    ("devDependencies", JSON.Obj [
       ("@babel/core", JSON.Str "^7.28.4");
       ("@babel/preset-env", JSON.Str "^7.28.3");
       ("babel-loader", JSON.Str "^9.2.1");
       ("live-server", JSON.Str "^1.2.2");
       ("npm-run-all", JSON.Str "^4.1.5");
       ("serve", JSON.Str "^14.0.0");
       ("webpack", JSON.Str "^5.101.3");
       ("webpack-cli", JSON.Str "^5.1.4");
       ("webpack-dev-server", JSON.Str "^5.2.2")
     ])
  ].

(** ** [path.resolve] *)

Module Path.

(** An absolute, normalized path, as the list of its components from
    the root: [/home/u/demo] is [["home"; "u"; "demo"]]. *)
Abbreviation path := (list string).

(** The segments of a string between its [/] separators. *)
Fixpoint segments (s : string) : list string :=
  match s with
  | "" => [""]
  | String c r =>
      if Ascii.eqb c "/" then "" :: segments r
      else match segments r with
           | x :: l => String c x :: l
           | [] => [String c ""]
           end
  end.

Definition isAbsolute (s : string) : bool :=
  match s with
  | String c _ => Ascii.eqb c "/"
  | "" => false
  end.

(** One segment of normalization: [""] and ["."] stay in place,
    [".."] goes to the parent (the root is its own parent). *)
Definition enter (p : path) (seg : string) : path :=
  if String.eqb seg "" || String.eqb seg "." then p
  else if String.eqb seg ".." then removelast p
  else p ++ [seg].

(** [resolve(from, to)] for an absolute normalized [from]. *)
Definition resolve (from : path) (to : string) : path :=
  fold_left enter (segments to) (if isAbsolute to then [] else from).

(** The parent directory and the name of the last component. *)
Fixpoint split_last (p : path) : option (path * string) :=
  match p with
  | [] => None
  | [x] => Some ([], x)
  | x :: q =>
      match split_last q with
      | Some (d, y) => Some (x :: d, y)
      | None => None
      end
  end.

End Path.

Import Path.

(** ** The file system *)

Module Fs.

Inductive node : Type :=
| File (data : string)
| Dir (entries : gmap string node).

Inductive errno : Type := ENOENT | EEXIST | ENOTDIR | EISDIR.

Inductive res (A : Type) : Type :=
| Ok (a : A)
| Err (e : errno).
Arguments Ok {A} a.
Arguments Err {A} e.

(** Path lookup from the root [t], one component at a time. *)
Fixpoint walk (p : path) (t : node) : res node :=
  match p with
  | [] => Ok t
  | x :: r =>
      match t with
      | File _ => Err ENOTDIR
      | Dir m =>
          match m !! x with
          | Some c => walk r c
          | None => Err ENOENT
          end
      end
  end.

(** The tree [t] with the entry at [p] set to [c].  [mkdir] and
    [writeFile] call it once they have found the parent directory. *)
Fixpoint put (p : path) (c : node) (t : node) : node :=
  match p with
  | [] => c
  | x :: r =>
      match t with
      | File _ => t
      | Dir m => Dir (<[x := put r c (default (Dir ∅) (m !! x))]> m)
      end
  end.

Definition exists_ (p : path) (t : node) : bool :=
  match walk p t with
  | Ok _ => true
  | Err _ => false
  end.

(** [mkdir(2)] without [recursive]: the parent must be a directory
    and the name must be free. *)
Definition mkdir (p : path) (t : node) : res node :=
  match split_last p with
  | None => Err EEXIST
  | Some (d, x) =>
      match walk d t with
      | Err e => Err e
      | Ok (File _) => Err ENOTDIR
      | Ok (Dir m) =>
          match m !! x with
          | Some _ => Err EEXIST
          | None => Ok (put p (Dir ∅) t)
          end
      end
  end.

(** [open(2)] with [O_WRONLY | O_CREAT | O_TRUNC] and one write: the
    parent must be a directory and the name free or a file. *)
Definition writeFile (p : path) (data : string) (t : node) : res node :=
  match split_last p with
  | None => Err EISDIR
  | Some (d, x) =>
      match walk d t with
      | Err e => Err e
      | Ok (File _) => Err ENOTDIR
      | Ok (Dir m) =>
          match m !! x with
          | Some (Dir _) => Err EISDIR
          | _ => Ok (put p (File data) t)
          end
      end
  end.

End Fs.

(** ** The process: outcomes, events and the [Proc] monad *)

(** What escapes as a JavaScript exception. *)
Inductive exn : Type :=
| FsError (syscall : string) (e : Fs.errno) (p : path)
| ChildFailed (cmd : string) (status : Z).

(** What the process does to the outside, in the order it does it.
    [EExec] records the file system the subprocess found and the status
    it exited with; [EStdout] and [EStderr] hold one printed line each,
    without its final line feed. *)
Inductive event : Type :=
| EExists (p : path) (found : bool)
| EMkdir (p : path)
| EWrite (p : path) (data : string)
| EStdout (line : string)
| EStderr (line : string)
| EExec (cmd : string) (dir : path) (seen : Fs.node) (status : Z).

Inductive outcome (A : Type) : Type :=
| Return (a : A)
| Exit (code : Z)
| Throw (e : exn).
Arguments Return {A} a.
Arguments Exit {A} code.
Arguments Throw {A} e.

Record result (A : Type) : Type := Result {
  outcome_of : outcome A;
  fs_of : Fs.node;
  trace_of : list event
}.
Arguments Result {A} _ _ _.
Arguments outcome_of {A} _.
Arguments fs_of {A} _.
Arguments trace_of {A} _.

Definition Proc (A : Type) : Type := Fs.node -> result A.

Definition ret {A : Type} (a : A) : Proc A :=
  fun t => Result (Return a) t [].

Definition bind {A B : Type} (m : Proc A) (k : A -> Proc B) : Proc B :=
  fun t =>
    let r := m t in
    match outcome_of r with
    | Return a =>
        let r' := k a (fs_of r) in
        Result (outcome_of r') (fs_of r') (trace_of r ++ trace_of r')
    | Exit code => Result (Exit code) (fs_of r) (trace_of r)
    | Throw e => Result (Throw e) (fs_of r) (trace_of r)
    end.

#[global] Instance Proc_ret : MRet Proc := @ret.
#[global] Instance Proc_bind : MBind Proc := fun A B k m => bind m k.

(** The status the operating system sees: 0 when the script runs to its
    end, the argument of [process.exit], 1 for an uncaught exception. *)
Definition exitCode {A : Type} (o : outcome A) : Z :=
  match o with
  | Return _ => 0
  | Exit code => code
  | Throw _ => 1
  end.

(** [util.format] for the [%s] placeholder with string arguments, as
    [console.log] applies it when it gets more than one argument. *)
Fixpoint format (f : string) (args : list string) : string :=
  match f with
  | "" => match args with
          | [] => ""
          | a :: l => " " +:+ join " " args
          end
  | String "%" (String "s" r) =>
      match args with
      | a :: l => a +:+ format r l
      | [] => String "%" (String "s" (format r []))
      end
  | String "%" (String "%" r) => String "%" (format r args)
  | String c r => String c (format r args)
  end.

Definition formatWithOptions (args : list string) : string :=
  match args with
  | [] => ""
  | [s] => s
  | f :: rest => format f rest
  end.

Definition console_log (args : list string) : Proc unit :=
  fun t => Result (Return tt) t [EStdout (formatWithOptions args)].

Definition console_error (args : list string) : Proc unit :=
  fun t => Result (Return tt) t [EStderr (formatWithOptions args)].

Definition process_exit {A : Type} (code : Z) : Proc A :=
  fun t => Result (Exit code) t [].

Definition existsSync (p : path) : Proc bool :=
  fun t => Result (Return (Fs.exists_ p t)) t [EExists p (Fs.exists_ p t)].

Definition mkdirSync (p : path) : Proc unit :=
  fun t =>
    match Fs.mkdir p t with
    | Fs.Ok t' => Result (Return tt) t' [EMkdir p]
    | Fs.Err e => Result (Throw (FsError "mkdir" e p)) t [EMkdir p]
    end.

Definition writeFileSync (p : path) (data : string) : Proc unit :=
  fun t =>
    match Fs.writeFile p data t with
    | Fs.Ok t' => Result (Return tt) t' [EWrite p data]
    | Fs.Err e => Result (Throw (FsError "open" e p)) t [EWrite p data]
    end.

Definition when (b : bool) (m : Proc unit) : Proc unit :=
  if b then m else ret tt.

(** ** The script *)

Section Script.

(** [process.cwd()]. *)
Variable cwd : path.

(** The subprocesses [execSync] starts: from the command, its working
    directory and the file system, the file system left and the exit
    status. *)
Variable npm : string -> path -> Fs.node -> Fs.node * Z.

(** [execSync(cmd, { cwd: dir, stdio: "inherit" })] waits for the
    subprocess and throws unless it exited with status 0. *)
Definition execSync (cmd : string) (dir : path) : Proc unit :=
  fun t =>
    let r := npm cmd dir t in
    let tr := [EExec cmd dir t (snd r)] in
    if (snd r =? 0)%Z then Result (Return tt) (fst r) tr
    else Result (Throw (ChildFailed cmd (snd r))) (fst r) tr.

Definition bold : string := String ESC "[1m".
Definition color1abc9c : string := String ESC "[38;5;37m".
Definition reset : string := String ESC "[0m".

Definition createProject (projectName : string) : Proc unit :=
  let projectPath := resolve cwd projectName in
  found ← existsSync projectPath;
  when found (
    console_error ["Folder " +:+ projectName +:+ " already exists."] ;;
    process_exit 1
  ) ;;
  mkdirSync projectPath ;;
  let srcPath := resolve projectPath "src" in
  mkdirSync srcPath ;;
  writeFileSync (resolve projectPath "index.html") (JS.trim (indexHtml projectName)) ;;
  writeFileSync (resolve srcPath "app.js") (JS.trim appJs) ;;
  writeFileSync (resolve projectPath "webpack.config.js") (JS.trim webpackConfig) ;;
  writeFileSync (resolve projectPath "package.json") (JSON.stringify (pkg projectName) 2) ;;
  console_log ["Installing dependencies..."] ;;
  execSync "npm install" projectPath ;;
  console_log ["Building Nodality bundle..."] ;;
  execSync "npm run build" projectPath ;;
  console_log [nl +:+ color1abc9c +:+ bold +:+ "%s" +:+ reset +:+ nl;
               "Project " +:+ q projectName +:+ " is ready! ðŸŽ‰"] ;;
  console_log [nl +:+ "Usage:" +:+ nl] ;;
  console_log ["  cd " +:+ projectName] ;;
  console_log ["  npm run build      # Rebuild library bundle"] ;;
  console_log ["  npm run dev        # Start dev server with live reload"] ;;
  console_log ["  npm start          # Serve project without watch"].

(** The top level of the script, from [process.argv].  [args[0]] is
    falsy when it is [undefined] or the empty string. *)
Definition main (argv : list string) : Proc unit :=
  let args := skipn 2 argv in
  match args !! 0%nat with
  | Some name =>
      if String.eqb name "" then
        console_error ["Usage: npm create nodality <project-name>"] ;;
        process_exit 1
      else createProject name
  | None =>
      console_error ["Usage: npm create nodality <project-name>"] ;;
      process_exit 1
  end.

End Script.

(** ** Reading JSON back

    The specification speaks of the manifest "parsed as structured
    data".  [JSON.parse] below is the reader used to state that: the
    JSON grammar of ECMA-404 for objects and strings, with fuel for the
    nesting. *)

Module JSONRead.

Import JSON.

Definition isWs (c : ascii) : bool :=
  let n := N_of_ascii c in
  ((n =? 9) || (n =? 10) || (n =? 13) || (n =? 32))%N.

Fixpoint skipWs (s : string) : string :=
  match s with
  | "" => ""
  | String c r => if isWs c then skipWs r else s
  end.

Definition hexValue (c : ascii) : option N :=
  let n := N_of_ascii c in
  if ((48 <=? n) && (n <=? 57))%N then Some (n - 48)%N
  else if ((97 <=? n) && (n <=? 102))%N then Some (n - 87)%N
  else if ((65 <=? n) && (n <=? 70))%N then Some (n - 55)%N
  else None.

Definition hex4 (a b c d : ascii) : option N :=
  match hexValue a, hexValue b, hexValue c, hexValue d with
  | Some x, Some y, Some z, Some w => Some (((x * 16 + y) * 16 + z) * 16 + w)%N
  | _, _, _, _ => None
  end.

(** The UTF-8 bytes of a code point of the basic plane; a surrogate
    half has none. *)
Definition utf8 (cp : N) : option string :=
  if (cp <? 128)%N then Some (String (ascii_of_N cp) "")
  else if (cp <? 2048)%N then
    Some (String (ascii_of_N (192 + cp / 64))
         (String (ascii_of_N (128 + cp mod 64)) ""))
  else if ((55296 <=? cp) && (cp <=? 57343))%N then None
  else
    Some (String (ascii_of_N (224 + cp / 4096))
         (String (ascii_of_N (128 + (cp / 64) mod 64))
         (String (ascii_of_N (128 + cp mod 64)) ""))).

Definition unescape (c : ascii) : option ascii :=
  let n := N_of_ascii c in
  if (n =? 98)%N then Some "008"%char
  else if (n =? 116)%N then Some "009"%char
  else if (n =? 110)%N then Some "010"%char
  else if (n =? 102)%N then Some "012"%char
  else if (n =? 114)%N then Some "013"%char
  else if (n =? 34)%N || (n =? 92)%N || (n =? 47)%N then Some c
  else None.

Definition prepend (x : string) (r : option (string * string)) : option (string * string) :=
  match r with
  | Some (s, rest) => Some (x +:+ s, rest)
  | None => None
  end.

(** The characters of a string literal after its opening quote, up to
    the closing one: the string denoted and what follows the
    literal. *)
Fixpoint readChars (s : string) : option (string * string) :=
  match s with
  | "" => None
  | String c r =>
      if Ascii.eqb c DQUOTE then Some ("", r)
      else if Ascii.eqb c BACKSLASH then
        match r with
        | "" => None
        | String e r1 =>
            if Ascii.eqb e "u" then
              match r1 with
              | String h1 (String h2 (String h3 (String h4 r2))) =>
                  match hex4 h1 h2 h3 h4 with
                  | Some cp =>
                      match utf8 cp with
                      | Some x => prepend x (readChars r2)
                      | None => None
                      end
                  | None => None
                  end
              | _ => None
              end
            else
              match unescape e with
              | Some x => prepend (String x "") (readChars r1)
              | None => None
              end
        end
      else if (N_of_ascii c <? 32)%N then None
      else prepend (String c "") (readChars r)
  end.

Fixpoint readValue (fuel : nat) (s : string) : option (value * string) :=
  match fuel with
  | O => None
  | S f =>
      match skipWs s with
      | "" => None
      | String c r =>
          if Ascii.eqb c DQUOTE then
            match readChars r with
            | Some (x, rest) => Some (Str x, rest)
            | None => None
            end
          else if Ascii.eqb c "{" then
            match skipWs r with
            | "" => None
            | String c' r' =>
                if Ascii.eqb c' "}" then Some (Obj [], r')
                else
                  match readMembers f r with
                  | Some (ms, rest) => Some (Obj ms, rest)
                  | None => None
                  end
            end
          else None
      end
  end

with readMembers (fuel : nat) (s : string) : option (list (string * value) * string) :=
  match fuel with
  | O => None
  | S f =>
      match skipWs s with
      | "" => None
      | String c r =>
          if Ascii.eqb c DQUOTE then
            match readChars r with
            | None => None
            | Some (k, r1) =>
                match skipWs r1 with
                | "" => None
                | String c1 r2 =>
                    if Ascii.eqb c1 ":" then
                      match readValue f r2 with
                      | None => None
                      | Some (v, r3) =>
                          match skipWs r3 with
                          | "" => None
                          | String c3 r4 =>
                              if Ascii.eqb c3 "," then
                                match readMembers f r4 with
                                | Some (ms, rest) => Some ((k, v) :: ms, rest)
                                | None => None
                                end
                              else if Ascii.eqb c3 "}" then Some ([(k, v)], r4)
                              else None
                          end
                      end
                    else None
                end
            end
          else None
      end
  end.

(** [JSON.parse(text)]; [None] stands for a SyntaxError. *)
Definition parse (text : string) : option value :=
  match readValue (String.length text) text with
  | Some (v, rest) =>
      match skipWs rest with
      | "" => Some v
      | _ => None
      end
  | None => None
  end.

End JSONRead.

(** ** Vocabulary of the properties *)

(** The project directory when the generator has written it: the four
    files and the [src] subdirectory, and nothing else. *)
Definition projectTree (projectName : string) : Fs.node :=
  Fs.Dir {[
    "index.html" := Fs.File (JS.trim (indexHtml projectName));
    "src" := Fs.Dir {[ "app.js" := Fs.File (JS.trim appJs) ]};
    "webpack.config.js" := Fs.File (JS.trim webpackConfig);
    "package.json" := Fs.File (JSON.stringify (pkg projectName) 2)
  ]}.

Definition isCheck (e : event) : bool :=
  match e with EExists _ _ => true | _ => false end.

Definition isWrite (e : event) : bool :=
  match e with EWrite _ _ => true | _ => false end.

(** A call that creates or changes a directory or a file. *)
Definition isMutation (e : event) : bool :=
  match e with EMkdir _ | EWrite _ _ => true | _ => false end.

Definition isExec (e : event) : bool :=
  match e with EExec _ _ _ _ => true | _ => false end.

Definition runs (cmd : string) (e : event) : bool :=
  match e with EExec c _ _ _ => String.eqb c cmd | _ => false end.

(** The files written, with their contents, in the order of the writes. *)
Fixpoint written (tr : list event) : list (path * string) :=
  match tr with
  | [] => []
  | EWrite p data :: r => (p, data) :: written r
  | _ :: r => written r
  end.

(** Every [A] event of the trace comes before every [B] event. *)
Definition precedes (A B : event -> bool) (tr : list event) : Prop :=
  forall (i j : nat) (a b : event),
    tr !! i = Some a -> tr !! j = Some b ->
    A a = true -> B b = true -> (i < j)%nat.

(** Every [B] event of the trace has an [A] event before it. *)
Definition preceded (A B : event -> bool) (tr : list event) : Prop :=
  forall (j : nat) (b : event),
    tr !! j = Some b -> B b = true ->
    exists (i : nat) (a : event), (i < j)%nat /\ tr !! i = Some a /\ A a = true.

(** The decision procedure for [precedes]: no [A] event at or after a
    [B] event. *)
Fixpoint precedesb (A B : event -> bool) (tr : list event) : bool :=
  match tr with
  | [] => true
  | e :: r => (negb (B e) || negb (existsb A tr)) && precedesb A B r
  end.

(** The decision procedure for [preceded]. *)
Fixpoint precededb (A B : event -> bool) (seen : bool) (tr : list event) : bool :=
  match tr with
  | [] => true
  | e :: r => (negb (B e) || seen) && precededb A B (seen || A e) r
  end.

(** [s] without its prefix [pat], when it starts with it. *)
Fixpoint stripPrefix (pat s : string) : option string :=
  match pat, s with
  | "", _ => Some s
  | String a pat', String b s' =>
      if Ascii.eqb a b then stripPrefix pat' s' else None
  | String _ _, "" => None
  end.

(** What follows the first occurrence of [pat] in [s]. *)
Fixpoint textAfter (pat s : string) : option string :=
  match stripPrefix pat s with
  | Some r => Some r
  | None =>
      match s with
      | "" => None
      | String _ r => textAfter pat r
      end
  end.

Definition isDigit (c : ascii) : bool :=
  let n := N_of_ascii c in ((48 <=? n) && (n <=? 57))%N.

(** [digits s] reads a non-empty run of decimal digits and gives what
    follows it. *)
Fixpoint digitsFrom (started : bool) (s : string) : option string :=
  match s with
  | "" => if started then Some "" else None
  | String c r =>
      if isDigit c then digitsFrom true r
      else if started then Some s else None
  end.

(** A caret range [^major.minor.patch]. *)
Definition caretRange (s : string) : bool :=
  match s with
  | String "^" r =>
      match digitsFrom false r with
      | Some (String "." r1) =>
          match digitsFrom false r1 with
          | Some (String "." r2) =>
              match digitsFrom false r2 with
              | Some "" => true
              | _ => false
              end
          | _ => false
          end
      | _ => false
      end
  | _ => false
  end.

(** The events of the generation phase in a fresh directory [p]. *)
Definition emission (p : path) (projectName : string) : list event :=
  [ EExists p false;
    EMkdir p;
    EMkdir (p ++ ["src"]);
    EWrite (p ++ ["index.html"]) (JS.trim (indexHtml projectName));
    EWrite (p ++ ["src"; "app.js"]) (JS.trim appJs);
    EWrite (p ++ ["webpack.config.js"]) (JS.trim webpackConfig);
    EWrite (p ++ ["package.json"]) (JSON.stringify (pkg projectName) 2) ].

(** The lines printed when both subprocesses have succeeded. *)
Definition report (projectName : string) : list event :=
  [ EStdout (nl +:+ color1abc9c +:+ bold +:+
             ("Project " +:+ q projectName +:+ " is ready! ðŸŽ‰") +:+
             reset +:+ nl);
    EStdout (nl +:+ "Usage:" +:+ nl);
    EStdout ("  cd " +:+ projectName);
    EStdout "  npm run build      # Rebuild library bundle";
    EStdout "  npm run dev        # Start dev server with live reload";
    EStdout "  npm start          # Serve project without watch" ].

Definition usage : list event :=
  [ EStderr "Usage: npm create nodality <project-name>" ].

(** The result [r] once the events [tr] have happened before it. *)
Definition after {A : Type} (tr : list event) (r : result A) : result A :=
  Result (outcome_of r) (fs_of r) (tr ++ trace_of r).

(** The runs of the script, case by case.  [shape cwd npm argv t r]:
    started with the arguments [argv] on the file system [t], the
    script ends as [r]. *)
Section Shape.

Variable cwd : path.
Variable npm : string -> path -> Fs.node -> Fs.node * Z.
Variable argv : list string.
Variable t : Fs.node.

Inductive shape : result unit -> Prop :=
| NoName :
    (skipn 2 argv !! 0%nat = None \/ skipn 2 argv !! 0%nat = Some "") ->
    shape (Result (Exit 1) t usage)
| Collision (name : string) :
    skipn 2 argv !! 0%nat = Some name -> name <> "" ->
    Fs.exists_ (resolve cwd name) t = true ->
    shape (Result (Exit 1) t
             [ EExists (resolve cwd name) true;
               EStderr ("Folder " +:+ name +:+ " already exists.") ])
| NoParent (name : string) (e : Fs.errno) :
    skipn 2 argv !! 0%nat = Some name -> name <> "" ->
    Fs.exists_ (resolve cwd name) t = false ->
    Fs.mkdir (resolve cwd name) t = Fs.Err e ->
    shape (Result (Throw (FsError "mkdir" e (resolve cwd name))) t
             [ EExists (resolve cwd name) false; EMkdir (resolve cwd name) ])
| InstallFails (name : string) (p : path) (t1 : Fs.node) (i : Fs.node * Z) :
    skipn 2 argv !! 0%nat = Some name -> name <> "" ->
    p = resolve cwd name ->
    Fs.exists_ p t = false ->
    Fs.mkdir p t = Fs.Ok (Fs.put p (Fs.Dir ∅) t) ->
    t1 = Fs.put p (projectTree name) t ->
    Fs.walk p t1 = Fs.Ok (projectTree name) ->
    i = npm "npm install" p t1 ->
    snd i <> 0%Z ->
    shape (Result (Throw (ChildFailed "npm install" (snd i))) (fst i)
             (emission p name ++
              [ EStdout "Installing dependencies...";
                EExec "npm install" p t1 (snd i) ]))
| BuildFails (name : string) (p : path) (t1 : Fs.node) (i b : Fs.node * Z) :
    skipn 2 argv !! 0%nat = Some name -> name <> "" ->
    p = resolve cwd name ->
    Fs.exists_ p t = false ->
    Fs.mkdir p t = Fs.Ok (Fs.put p (Fs.Dir ∅) t) ->
    t1 = Fs.put p (projectTree name) t ->
    Fs.walk p t1 = Fs.Ok (projectTree name) ->
    i = npm "npm install" p t1 ->
    snd i = 0%Z ->
    b = npm "npm run build" p (fst i) ->
    snd b <> 0%Z ->
    shape (Result (Throw (ChildFailed "npm run build" (snd b))) (fst b)
             (emission p name ++
              [ EStdout "Installing dependencies...";
                EExec "npm install" p t1 (snd i);
                EStdout "Building Nodality bundle...";
                EExec "npm run build" p (fst i) (snd b) ]))
| Ready (name : string) (p : path) (t1 : Fs.node) (i b : Fs.node * Z) :
    skipn 2 argv !! 0%nat = Some name -> name <> "" ->
    p = resolve cwd name ->
    Fs.exists_ p t = false ->
    Fs.mkdir p t = Fs.Ok (Fs.put p (Fs.Dir ∅) t) ->
    t1 = Fs.put p (projectTree name) t ->
    Fs.walk p t1 = Fs.Ok (projectTree name) ->
    i = npm "npm install" p t1 ->
    snd i = 0%Z ->
    b = npm "npm run build" p (fst i) ->
    snd b = 0%Z ->
    shape (Result (Return tt) (fst b)
             (emission p name ++
              [ EStdout "Installing dependencies...";
                EExec "npm install" p t1 (snd i);
                EStdout "Building Nodality bundle...";
                EExec "npm run build" p (fst i) (snd b) ] ++
              report name)).

End Shape.

(** A text that [skipWs] skips whole. *)
Definition blank (w : string) : Prop :=
  forall s : string, JSONRead.skipWs (w +:+ s) = JSONRead.skipWs s.

(** The text of one member, as SerializeJSONObject builds it, and what
    it puts after the opening brace and before the closing one. *)
Definition member (gap indent : string) (m : string * JSON.value) : string :=
  JSON.QuoteJSONString (fst m) +:+ ":" +:+
  (if String.eqb gap "" then "" else " ") +:+
  JSON.SerializeJSONProperty gap indent (snd m).

Definition opening (gap indent : string) : string :=
  if String.eqb gap "" then "" else nl +:+ indent +:+ gap.

Definition closing (gap indent : string) : string :=
  if String.eqb gap "" then "" else nl +:+ indent.

(** The reader gives [v] back from its serialization, whatever
    follows, with fuel for the length of the text. *)
Definition reads_back (gap : string) (v : JSON.value) : Prop :=
  forall (indent rest : string) (f : nat),
    blank indent ->
    (String.length (JSON.SerializeJSONProperty gap indent v) <= f)%nat ->
    JSONRead.readValue f (JSON.SerializeJSONProperty gap indent v +:+ rest) =
    Some (v, rest).

(** The four files of a project at [p], with their contents, in the
    order the generator writes them. *)
Definition artifacts (p : path) (projectName : string) : list (path * string) :=
  [ (p ++ ["index.html"], JS.trim (indexHtml projectName));
    (p ++ ["src"; "app.js"], JS.trim appJs);
    (p ++ ["webpack.config.js"], JS.trim webpackConfig);
    (p ++ ["package.json"], JSON.stringify (pkg projectName) 2) ].

(** The run [r] was stopped by the collision guard on the path [p]: it
    printed the error, exited with status 1 and left the file system
    [t] alone. *)
Definition rejected (p : path) (name : string) (t : Fs.node) (r : result unit) : Prop :=
  outcome_of r = Exit 1 /\
  exitCode (outcome_of r) <> 0%Z /\
  trace_of r =
    [EExists p true; EStderr ("Folder " +:+ name +:+ " already exists.")] /\
  Forall (fun e => isMutation e = false /\ isExec e = false) (trace_of r) /\
  fs_of r = t.

(** ** Sample runs *)

Module Sample.

(** A disk with the home directory [/home/u], empty. *)
Definition disk : Fs.node :=
  Fs.Dir {[ "home" := Fs.Dir {[ "u" := Fs.Dir ∅ ]} ]}.

Definition home : path := ["home"; "u"].

(** An [npm] that succeeds: [install] leaves [node_modules] and a
    lock file, [run build] leaves the bundle. *)
Definition npm (cmd : string) (dir : path) (t : Fs.node) : Fs.node * Z :=
  if String.eqb cmd "npm install" then
    (Fs.put (dir ++ ["package-lock.json"]) (Fs.File "{}")
       (Fs.put (dir ++ ["node_modules"]) (Fs.Dir ∅) t), 0%Z)
  else
    (Fs.put (dir ++ ["dist"]) (Fs.Dir {[ "lib.bundle.js" := Fs.File "" ]}) t, 0%Z).

(** An [npm] without network: [install] fails with status 1. *)
Definition npmOffline (cmd : string) (dir : path) (t : Fs.node) : Fs.node * Z :=
  if String.eqb cmd "npm install" then (t, 1%Z) else (t, 0%Z).

(** An [npm] whose build fails with status 2. *)
Definition npmBrokenBuild (cmd : string) (dir : path) (t : Fs.node) : Fs.node * Z :=
  if String.eqb cmd "npm install" then npm cmd dir t else (t, 2%Z).

Definition argv (name : string) : list string :=
  ["/usr/bin/node"; "/usr/lib/node_modules/create-nodality/bin/index.js"; name].

End Sample.

(** ** Vocabulary of the further properties *)



(** The subprocesses started, each with its working directory. *)
Fixpoint spawned (tr : list event) : list (string * path) :=
  match tr with
  | [] => []
  | EExec cmd dir _ _ :: r => (cmd, dir) :: spawned r
  | _ :: r => spawned r
  end.


(** A name that only climbs: between its separators there is nothing
    but [.] and [..]. *)
Definition climbs (name : string) : bool :=
  forallb (fun s => String.eqb s "" || String.eqb s "." || String.eqb s "..")
          (segments name).

(** A home directory in use, beside other entries of the disk. *)
Module Desk.

Definition disk : Fs.node :=
  Fs.Dir {[
    "etc" := Fs.Dir {[ "hosts" := Fs.File "127.0.0.1 localhost" ]};
    "home" := Fs.Dir {[
      "u" := Fs.Dir {[
        "notes.txt" := Fs.File "todo";
        "old" := Fs.Dir {[ "index.html" := Fs.File "<p>old</p>" ]}
      ]}
    ]}
  ]}.

End Desk.

(** * Properties *)

(** ** Paths *)

Lemma split_last_snoc (d : path) (x : string) :
  split_last (d ++ [x]) = Some (d, x).
Proof.
  induction d as [|y d IH]; [reflexivity|].
  cbn [app split_last]. rewrite IH.
  destruct d; reflexivity.
Qed.

Lemma split_last_Some (p d : path) (x : string) :
  split_last p = Some (d, x) -> p = d ++ [x].
Proof.
  revert d. induction p as [|y p IH]; intros d H; [discriminate|].
  cbn [split_last] in H. destruct p as [|z p].
  - injection H as <- <-. reflexivity.
  - destruct (split_last (z :: p)) as [[d' y']|] eqn:E; [|discriminate].
    injection H as <- <-. cbn [app]. f_equal. apply IH. reflexivity.
Qed.

Lemma resolve_src (p : path) : resolve p "src" = p ++ ["src"].
Proof. reflexivity. Qed.

Lemma resolve_index_html (p : path) : resolve p "index.html" = p ++ ["index.html"].
Proof. reflexivity. Qed.

Lemma resolve_app_js (p : path) : resolve p "app.js" = p ++ ["app.js"].
Proof. reflexivity. Qed.

Lemma resolve_webpack_config_js (p : path) :
  resolve p "webpack.config.js" = p ++ ["webpack.config.js"].
Proof. reflexivity. Qed.

Lemma resolve_package_json (p : path) :
  resolve p "package.json" = p ++ ["package.json"].
Proof. reflexivity. Qed.

(** ** The file system *)

Lemma walk_app (p r : path) (t : Fs.node) :
  Fs.walk (p ++ r) t =
  match Fs.walk p t with
  | Fs.Ok c => Fs.walk r c
  | Fs.Err e => Fs.Err e
  end.
Proof.
  revert t. induction p as [|x p IH]; intros t; [reflexivity|].
  cbn [app Fs.walk]. destruct t as [data|m]; [reflexivity|].
  destruct (m !! x); [apply IH | reflexivity].
Qed.

Lemma put_app (p r : path) (c s t : Fs.node) :
  Fs.walk p t = Fs.Ok s ->
  Fs.put (p ++ r) c t = Fs.put p (Fs.put r c s) t.
Proof.
  revert t. induction p as [|x p IH]; intros t H.
  - cbn in H. injection H as ->. reflexivity.
  - cbn [app Fs.put]. cbn [Fs.walk] in H.
    destruct t as [data|m]; [discriminate|].
    destruct (m !! x) as [ch|] eqn:E; [|discriminate].
    cbn [default from_option id]. rewrite (IH _ H). reflexivity.
Qed.

Lemma put_put (p : path) (c1 c2 t : Fs.node) :
  Fs.put p c2 (Fs.put p c1 t) = Fs.put p c2 t.
Proof.
  revert t. induction p as [|x p IH]; intros t; [reflexivity|].
  cbn [Fs.put]. destruct t as [data|m]; [reflexivity|].
  cbn [Fs.put]. rewrite lookup_insert_eq. cbn [default from_option id].
  rewrite IH, insert_insert_eq. reflexivity.
Qed.

Lemma walk_put (p : path) (c s t : Fs.node) :
  Fs.walk p t = Fs.Ok s -> Fs.walk p (Fs.put p c t) = Fs.Ok c.
Proof.
  revert t. induction p as [|x p IH]; intros t H; [reflexivity|].
  cbn [Fs.walk] in H. destruct t as [data|m]; [discriminate|].
  destruct (m !! x) as [ch|] eqn:E; [|discriminate].
  cbn [Fs.put Fs.walk]. rewrite lookup_insert_eq, E. cbn [default from_option id].
  apply IH. exact H.
Qed.

(** A new entry in an existing directory. *)
Lemma walk_put_new (d : path) (x : string) (m : gmap string Fs.node) (c t : Fs.node) :
  Fs.walk d t = Fs.Ok (Fs.Dir m) ->
  Fs.walk (d ++ [x]) (Fs.put (d ++ [x]) c t) = Fs.Ok c.
Proof.
  intros H. rewrite (put_app d [x] c _ t H), walk_app, (walk_put d _ _ t H).
  cbn [Fs.put Fs.walk]. rewrite lookup_insert_eq. reflexivity.
Qed.

Lemma split_last_app (p r d : path) (x : string) :
  split_last r = Some (d, x) -> split_last (p ++ r) = Some (p ++ d, x).
Proof.
  intros H. apply split_last_Some in H. subst r.
  rewrite app_assoc. apply split_last_snoc.
Qed.

Lemma split_last_None (r : path) : split_last r = None -> r = [].
Proof.
  induction r as [|y r IH]; [reflexivity|]. cbn [split_last].
  destruct r as [|z r]; [discriminate|].
  destruct (split_last (z :: r)) as [[d x]|]; [discriminate|].
  intros _. discriminate IH. reflexivity.
Qed.

(** An operation below [p] is the operation on the subtree at [p]. *)
Lemma mkdir_under (p r : path) (c t : Fs.node) :
  r <> [] -> Fs.walk p t = Fs.Ok c ->
  Fs.mkdir (p ++ r) t =
  match Fs.mkdir r c with
  | Fs.Ok c' => Fs.Ok (Fs.put p c' t)
  | Fs.Err e => Fs.Err e
  end.
Proof.
  intros Hr H. unfold Fs.mkdir.
  destruct (split_last r) as [[d x]|] eqn:E.
  - rewrite (split_last_app p r d x E), walk_app, H.
    destruct (Fs.walk d c) as [[data|m]|e]; try reflexivity.
    destruct (m !! x); [reflexivity|].
    rewrite (put_app p r _ c t H). reflexivity.
  - apply split_last_None in E. contradiction.
Qed.

Lemma writeFile_under (p r : path) (data : string) (c t : Fs.node) :
  r <> [] -> Fs.walk p t = Fs.Ok c ->
  Fs.writeFile (p ++ r) data t =
  match Fs.writeFile r data c with
  | Fs.Ok c' => Fs.Ok (Fs.put p c' t)
  | Fs.Err e => Fs.Err e
  end.
Proof.
  intros Hr H. unfold Fs.writeFile.
  destruct (split_last r) as [[d x]|] eqn:E.
  - rewrite (split_last_app p r d x E), walk_app, H.
    destruct (Fs.walk d c) as [[data'|m]|e]; try reflexivity.
    destruct (m !! x) as [[data'|m']|]; try reflexivity.
    + rewrite (put_app p r _ c t H). reflexivity.
    + rewrite (put_app p r _ c t H). reflexivity.
  - apply split_last_None in E. contradiction.
Qed.

(** [mkdir] succeeds exactly on a free name in a directory. *)
Lemma mkdir_Ok_inv (p : path) (t t' : Fs.node) :
  Fs.mkdir p t = Fs.Ok t' ->
  exists (d : path) (x : string) (m : gmap string Fs.node),
    p = d ++ [x] /\ Fs.walk d t = Fs.Ok (Fs.Dir m) /\ m !! x = None /\
    t' = Fs.put p (Fs.Dir ∅) t.
Proof.
  unfold Fs.mkdir. destruct (split_last p) as [[d x]|] eqn:E; [|discriminate].
  destruct (Fs.walk d t) as [[data|m]|e] eqn:W; try discriminate.
  destruct (m !! x) eqn:L; [discriminate|].
  intros [= <-]. exists d, x, m. split; [apply split_last_Some, E|]. auto.
Qed.

Lemma mkdir_fresh (d : path) (x : string) (m : gmap string Fs.node) (t : Fs.node) :
  Fs.walk d t = Fs.Ok (Fs.Dir m) -> Fs.exists_ (d ++ [x]) t = false ->
  Fs.mkdir (d ++ [x]) t = Fs.Ok (Fs.put (d ++ [x]) (Fs.Dir ∅) t).
Proof.
  intros W. unfold Fs.exists_, Fs.mkdir.
  rewrite split_last_snoc, walk_app, W. cbn [Fs.walk].
  destruct (m !! x); [discriminate | reflexivity].
Qed.

(** ** Running the script *)

Lemma bind_Return {A B : Type} (m : Proc A) (k : A -> Proc B)
      (t t' : Fs.node) (a : A) (tr : list event) :
  m t = Result (Return a) t' tr -> (m ≫= k) t = after tr (k a t').
Proof.
  intros H. unfold mbind, Proc_bind, bind. rewrite H. reflexivity.
Qed.

Lemma bind_Exit {A B : Type} (m : Proc A) (k : A -> Proc B)
      (t t' : Fs.node) (code : Z) (tr : list event) :
  m t = Result (Exit code) t' tr -> (m ≫= k) t = Result (Exit code) t' tr.
Proof.
  intros H. unfold mbind, Proc_bind, bind. rewrite H. reflexivity.
Qed.

Lemma bind_Throw {A B : Type} (m : Proc A) (k : A -> Proc B)
      (t t' : Fs.node) (e : exn) (tr : list event) :
  m t = Result (Throw e) t' tr -> (m ≫= k) t = Result (Throw e) t' tr.
Proof.
  intros H. unfold mbind, Proc_bind, bind. rewrite H. reflexivity.
Qed.

Section Emission.

Variables (d : path) (x : string) (m : gmap string Fs.node) (t : Fs.node).
Hypothesis parent : Fs.walk d t = Fs.Ok (Fs.Dir m).

Lemma mkdirSync_in (r : path) (c c' : Fs.node) :
  r <> [] -> Fs.mkdir r c = Fs.Ok c' ->
  mkdirSync ((d ++ [x]) ++ r) (Fs.put (d ++ [x]) c t) =
  Result (Return tt) (Fs.put (d ++ [x]) c' t) [EMkdir ((d ++ [x]) ++ r)].
Proof.
  intros Hr H. unfold mkdirSync.
  rewrite (mkdir_under _ r c _ Hr (walk_put_new d x m c t parent)), H, put_put.
  reflexivity.
Qed.

Lemma writeFileSync_in (r : path) (data : string) (c c' : Fs.node) :
  r <> [] -> Fs.writeFile r data c = Fs.Ok c' ->
  writeFileSync ((d ++ [x]) ++ r) data (Fs.put (d ++ [x]) c t) =
  Result (Return tt) (Fs.put (d ++ [x]) c' t) [EWrite ((d ++ [x]) ++ r) data].
Proof.
  intros Hr H. unfold writeFileSync.
  rewrite (writeFile_under _ r data c _ Hr (walk_put_new d x m c t parent)), H, put_put.
  reflexivity.
Qed.

End Emission.

(** The six file-system calls of the generator on an empty project
    directory, whatever the four contents. *)
Lemma emitted_tree (a b c e : string) :
  exists c1 c2 c3 c4 c5,
    Fs.mkdir ["src"] (Fs.Dir ∅) = Fs.Ok c1 /\
    Fs.writeFile ["index.html"] a c1 = Fs.Ok c2 /\
    Fs.writeFile ["src"; "app.js"] b c2 = Fs.Ok c3 /\
    Fs.writeFile ["webpack.config.js"] c c3 = Fs.Ok c4 /\
    Fs.writeFile ["package.json"] e c4 = Fs.Ok c5 /\
    c5 = Fs.Dir {[ "index.html" := Fs.File a;
                   "src" := Fs.Dir {[ "app.js" := Fs.File b ]};
                   "webpack.config.js" := Fs.File c;
                   "package.json" := Fs.File e ]}.
Proof.
  do 5 eexists. repeat split; reflexivity.
Qed.

Section Runs.

Variable cwd : path.
Variable npm : string -> path -> Fs.node -> Fs.node * Z.

Lemma execSync_run (cmd : string) (dir : path) (t : Fs.node) :
  execSync npm cmd dir t =
  Result (if (snd (npm cmd dir t) =? 0)%Z then Return tt
          else Throw (ChildFailed cmd (snd (npm cmd dir t))))
         (fst (npm cmd dir t))
         [EExec cmd dir t (snd (npm cmd dir t))].
Proof. unfold execSync. destruct (snd (npm cmd dir t) =? 0)%Z; reflexivity. Qed.

(** A run that passes the collision guard and creates the project
    directory goes through the whole generation phase. *)
Lemma createProject_fresh (argv : list string) (name : string) (d : path)
      (x : string) (m : gmap string Fs.node) (t : Fs.node) :
  skipn 2 argv !! 0%nat = Some name -> name <> "" ->
  resolve cwd name = d ++ [x] ->
  Fs.walk d t = Fs.Ok (Fs.Dir m) ->
  Fs.exists_ (d ++ [x]) t = false ->
  shape cwd npm argv t (createProject cwd npm name t).
Proof.
  intros Hname Hne Hp W E.
  pose proof (mkdir_fresh d x m t W E) as Hmk.
  pose proof (walk_put_new d x m (projectTree name) t W) as Hw.
  unfold createProject. rewrite Hp.
  rewrite resolve_src, resolve_index_html, resolve_app_js,
    resolve_webpack_config_js, resolve_package_json.
  destruct (emitted_tree (JS.trim (indexHtml name)) (JS.trim appJs)
              (JS.trim webpackConfig) (JSON.stringify (pkg name) 2))
    as (c1 & c2 & c3 & c4 & c5 & H1 & H2 & H3 & H4 & H5 & Hc5).
  fold (projectTree name) in Hc5. subst c5.
  erewrite bind_Return; [|unfold existsSync; rewrite E; reflexivity].
  erewrite bind_Return; [|reflexivity].
  erewrite bind_Return; [|unfold mkdirSync; rewrite Hmk; reflexivity].
  erewrite bind_Return;
    [|eapply (mkdirSync_in d x m t W ["src"]); [discriminate|exact H1]].
  erewrite bind_Return;
    [|eapply (writeFileSync_in d x m t W ["index.html"]); [discriminate|exact H2]].
  rewrite <- (app_assoc (d ++ [x]) ["src"] ["app.js"]). cbn [app].
  erewrite bind_Return;
    [|eapply (writeFileSync_in d x m t W ["src"; "app.js"]); [discriminate|exact H3]].
  erewrite bind_Return;
    [|eapply (writeFileSync_in d x m t W ["webpack.config.js"]); [discriminate|exact H4]].
  erewrite bind_Return;
    [|eapply (writeFileSync_in d x m t W ["package.json"]); [discriminate|exact H5]].
  erewrite bind_Return; [|reflexivity].
  set (p := d ++ [x]) in *.
  set (t1 := Fs.put p (projectTree name) t) in *.
  remember (npm "npm install" p t1) as i eqn:Hi.
  destruct (snd i =? 0)%Z eqn:Si.
  - erewrite bind_Return; [|rewrite execSync_run, <- Hi, Si; reflexivity].
    erewrite bind_Return; [|reflexivity].
    remember (npm "npm run build" p (fst i)) as b eqn:Hb.
    destruct (snd b =? 0)%Z eqn:Sb.
    + erewrite bind_Return; [|rewrite execSync_run, <- Hb, Sb; reflexivity].
      do 5 (erewrite bind_Return; [|reflexivity]).
      apply Z.eqb_eq in Si, Sb.
      exact (Ready cwd npm argv t name p t1 i b Hname Hne (eq_sym Hp) E Hmk eq_refl Hw Hi Si Hb Sb).
    + erewrite bind_Throw; [|rewrite execSync_run, <- Hb, Sb; reflexivity].
      apply Z.eqb_eq in Si. apply Z.eqb_neq in Sb.
      exact (BuildFails cwd npm argv t name p t1 i b Hname Hne (eq_sym Hp) E Hmk eq_refl Hw Hi Si Hb Sb).
  - erewrite bind_Throw; [|rewrite execSync_run, <- Hi, Si; reflexivity].
    apply Z.eqb_neq in Si.
    exact (InstallFails cwd npm argv t name p t1 i Hname Hne (eq_sym Hp) E Hmk eq_refl Hw Hi Si).
Qed.

(** Every run of the script has one of the six shapes. *)
Lemma main_shape (argv : list string) (t : Fs.node) :
  shape cwd npm argv t (main cwd npm argv t).
Proof.
  unfold main.
  destruct (skipn 2 argv !! 0%nat) as [name|] eqn:Hname;
    [|apply NoName; left; exact Hname].
  destruct (String.eqb name "") eqn:Hne.
  { apply String.eqb_eq in Hne. subst name. apply NoName. right. exact Hname. }
  apply String.eqb_neq in Hne.
  destruct (Fs.exists_ (resolve cwd name) t) eqn:E.
  { unfold createProject.
    erewrite bind_Return; [|unfold existsSync; rewrite E; reflexivity].
    erewrite bind_Exit; [|reflexivity].
    apply Collision; assumption. }
  destruct (Fs.mkdir (resolve cwd name) t) as [t'|e] eqn:Hmk.
  - destruct (mkdir_Ok_inv _ _ _ Hmk) as (d & x & m & Hp & W & _ & _).
    rewrite Hp in E.
    exact (createProject_fresh argv name d x m t Hname Hne Hp W E).
  - unfold createProject.
    erewrite bind_Return; [|unfold existsSync; rewrite E; reflexivity].
    erewrite bind_Return; [|reflexivity].
    erewrite bind_Throw; [|unfold mkdirSync; rewrite Hmk; reflexivity].
    apply NoParent; assumption.
Qed.

End Runs.

(** ** Strings and templates *)

Lemma append_cons (x : ascii) (a b : string) :
  String x a +:+ b = String x (a +:+ b).
Proof. reflexivity. Qed.

Lemma append_assoc (a b c : string) : (a +:+ b) +:+ c = a +:+ (b +:+ c).
Proof.
  induction a as [|x a IH]; [reflexivity|].
  rewrite !append_cons, IH. reflexivity.
Qed.

Lemma append_nil_r (a : string) : a +:+ "" = a.
Proof.
  induction a as [|x a IH]; [reflexivity|].
  rewrite append_cons, IH. reflexivity.
Qed.

Lemma length_append (a b : string) :
  String.length (a +:+ b) = (String.length a + String.length b)%nat.
Proof.
  induction a as [|x a IH]; [reflexivity|].
  rewrite append_cons. cbn [String.length]. rewrite IH. reflexivity.
Qed.

Lemma append_not_empty (a b : string) : b <> "" -> a +:+ b <> "".
Proof. destruct a; [trivial | rewrite append_cons; discriminate]. Qed.

(** [trimEnd] looks at the end of the text only. *)
Lemma trimEnd_append (a b : string) :
  JS.trimEnd b <> "" -> JS.trimEnd (a +:+ b) = a +:+ JS.trimEnd b.
Proof.
  intros Hb. induction a as [|x a IH]; [reflexivity|].
  rewrite append_cons. cbn [JS.trimEnd]. rewrite IH.
  destruct (a +:+ JS.trimEnd b) eqn:E; [|rewrite append_cons, E; reflexivity].
  exfalso. exact (append_not_empty a _ Hb E).
Qed.

(** The document is the same text around the name, whatever the name,
    and the name is what follows the first [<title>] tag. *)
Lemma indexHtml_frame :
  exists head tail : string,
    forall name : string,
      JS.trim (indexHtml name) =
      head +:+ "<title>" +:+ name +:+ "</title>" +:+ tail /\
      textAfter "<title>" (JS.trim (indexHtml name)) =
      Some (name +:+ "</title>" +:+ tail).
Proof.
  let s := eval vm_compute in (indexHtml "") in
  let k := eval vm_compute in (default 0%nat (String.index 0 "</title>" s)) in
  let h := eval vm_compute in (String.substring 0 k s) in
  let t := eval vm_compute in (String.substring k (String.length s - k) s) in
  let h' := eval vm_compute in
    (String.substring 0 (String.length (JS.trimStart h) - 7) (JS.trimStart h)) in
  let t' := eval vm_compute in
    (String.substring 8 (String.length (JS.trimEnd t) - 8) (JS.trimEnd t)) in
  assert (Hs : forall name, indexHtml name = h +:+ name +:+ t);
  [ intros name; unfold indexHtml, lines; cbn [join];
    rewrite !append_assoc; reflexivity
  | exists h', t'; intros name;
    assert (Ht : JS.trim (indexHtml name) =
                 h' +:+ "<title>" +:+ name +:+ "</title>" +:+ t');
    [ unfold JS.trim; rewrite Hs, !trimEnd_append;
      [ reflexivity
      | discriminate
      | rewrite trimEnd_append by discriminate;
        apply append_not_empty; discriminate ]
    | split; [exact Ht | rewrite Ht; reflexivity] ] ].
Qed.

(** ** [JSON.parse] reads back what [JSON.stringify] writes *)

Section ValueInduction.

Variable P : JSON.value -> Prop.
Hypothesis P_Str : forall s : string, P (JSON.Str s).
Hypothesis P_Obj :
  forall ms : list (string * JSON.value),
    Forall (fun m => P (snd m)) ms -> P (JSON.Obj ms).

Lemma value_induction (v : JSON.value) : P v.
Proof.
  revert v. fix IH 1. intros [s|ms].
  - apply P_Str.
  - apply P_Obj. induction ms as [|m ms IHms].
    + apply List.Forall_nil.
    + apply List.Forall_cons; [apply IH | exact IHms].
Qed.

End ValueInduction.

Section RoundTrip.

Import JSON JSONRead.

Lemma blank_empty : blank "".
Proof. intros s. reflexivity. Qed.

Lemma blank_append (a b : string) : blank a -> blank b -> blank (a +:+ b).
Proof. intros Ha Hb s. rewrite append_assoc, Ha, Hb. reflexivity. Qed.

Lemma blank_nl : blank nl.
Proof. intros s. reflexivity. Qed.

Lemma blank_space : blank " ".
Proof. intros s. reflexivity. Qed.

Lemma blank_spaces (n : nat) : blank (spaces n).
Proof.
  induction n as [|n IH]; intros s; [reflexivity|].
  cbn [spaces]. rewrite append_cons. cbn. apply IH.
Qed.

Lemma readChars_quoteChar (c : ascii) (s : string) :
  readChars (quoteChar c +:+ s) = prepend (String c "") (readChars s).
Proof. destruct c as [[] [] [] [] [] [] [] []]; reflexivity. Qed.

Lemma readChars_quoteBody (s rest : string) :
  readChars (quoteBody s +:+ String DQUOTE rest) = Some (s, rest).
Proof.
  induction s as [|c s IH]; [reflexivity|].
  change (quoteBody (String c s)) with (quoteChar c +:+ quoteBody s).
  rewrite append_assoc, readChars_quoteChar, IH. reflexivity.
Qed.

Lemma QuoteJSONString_cons (s rest : string) :
  QuoteJSONString s +:+ rest =
  String DQUOTE (quoteBody s +:+ String DQUOTE rest).
Proof.
  unfold QuoteJSONString. rewrite !append_assoc. reflexivity.
Qed.

Lemma readValue_blank (f : nat) (w s : string) :
  blank w -> readValue f (w +:+ s) = readValue f s.
Proof. intros Hw. destruct f; [reflexivity|]. cbn [readValue]. rewrite Hw. reflexivity. Qed.

Lemma readMembers_blank (f : nat) (w s : string) :
  blank w -> readMembers f (w +:+ s) = readMembers f s.
Proof. intros Hw. destruct f; [reflexivity|]. cbn [readMembers]. rewrite Hw. reflexivity. Qed.

Lemma readValue_quote (f : nat) (r : string) :
  readValue (S f) (String DQUOTE r) =
  match readChars r with
  | Some (x, rest) => Some (Str x, rest)
  | None => None
  end.
Proof. reflexivity. Qed.

Lemma readValue_brace (f : nat) (r : string) :
  readValue (S f) (String "{" r) =
  match skipWs r with
  | "" => None
  | String c r' =>
      if Ascii.eqb c "}" then Some (Obj [], r')
      else
        match readMembers f r with
        | Some (ms, rest) => Some (Obj ms, rest)
        | None => None
        end
  end.
Proof. reflexivity. Qed.

Lemma readMembers_quote (f : nat) (r : string) :
  readMembers (S f) (String DQUOTE r) =
  match readChars r with
  | None => None
  | Some (k, r1) =>
      match skipWs r1 with
      | "" => None
      | String c1 r2 =>
          if Ascii.eqb c1 ":" then
            match readValue f r2 with
            | None => None
            | Some (v, r3) =>
                match skipWs r3 with
                | "" => None
                | String c3 r4 =>
                    if Ascii.eqb c3 "," then
                      match readMembers f r4 with
                      | Some (ms, rest) => Some ((k, v) :: ms, rest)
                      | None => None
                      end
                    else if Ascii.eqb c3 "}" then Some ([(k, v)], r4)
                    else None
                end
            end
          else None
      end
  end.
Proof. reflexivity. Qed.

Lemma readValue_Str (f : nat) (s rest : string) :
  readValue (S f) (QuoteJSONString s +:+ rest) = Some (Str s, rest).
Proof.
  rewrite QuoteJSONString_cons, readValue_quote, readChars_quoteBody.
  reflexivity.
Qed.

(** One member, then either the next one or the closing brace. *)
Lemma readMembers_member (f : nat) (k : string) (w : string) (v : value)
      (text rest : string) :
  blank w ->
  readValue f (text +:+ rest) = Some (v, rest) ->
  readMembers (S f) (QuoteJSONString k +:+ ":" +:+ w +:+ text +:+ rest) =
  match skipWs rest with
  | "" => None
  | String c3 r4 =>
      if Ascii.eqb c3 "," then
        match readMembers f r4 with
        | Some (ms, rest') => Some ((k, v) :: ms, rest')
        | None => None
        end
      else if Ascii.eqb c3 "}" then Some ([(k, v)], r4)
      else None
  end.
Proof.
  intros Hw Hv.
  rewrite QuoteJSONString_cons, readMembers_quote, readChars_quoteBody.
  change (":" +:+ w +:+ text +:+ rest) with (String ":" (w +:+ text +:+ rest)).
  cbn [skipWs isWs]. change (isWs ":") with false. cbv iota.
  change (Ascii.eqb ":" ":") with true. cbv iota.
  rewrite (readValue_blank f w _ Hw), Hv. reflexivity.
Qed.


Variable gap : string.
Hypothesis blank_gap : blank gap.

Lemma blank_colon : blank (if String.eqb gap "" then "" else " ").
Proof. destruct (String.eqb gap ""); [apply blank_empty | apply blank_space]. Qed.

Lemma blank_opening (indent : string) : blank indent -> blank (opening gap indent).
Proof.
  intros Hi. unfold opening. destruct (String.eqb gap ""); [apply blank_empty|].
  repeat apply blank_append; auto using blank_nl.
Qed.

Lemma blank_closing (indent : string) : blank indent -> blank (closing gap indent).
Proof.
  intros Hi. unfold closing. destruct (String.eqb gap ""); [apply blank_empty|].
  apply blank_append; auto using blank_nl.
Qed.

Lemma serialize_members (indent : string) (m : string * value)
      (ms : list (string * value)) :
  SerializeJSONProperty gap indent (Obj (m :: ms)) =
  "{" +:+ opening gap indent +:+
  join ("," +:+ opening gap indent) (List.map (member gap (indent +:+ gap)) (m :: ms)) +:+
  closing gap indent +:+ "}".
Proof.
  unfold opening, closing. cbn [SerializeJSONProperty List.map].
  fold (member gap (indent +:+ gap) m).
  change (List.map _ ms) with (List.map (member gap (indent +:+ gap)) ms).
  destruct (String.eqb gap ""); reflexivity.
Qed.

Lemma member_head (indent : string) (m : string * value) (rest : string) :
  exists r : string, member gap indent m +:+ rest = String DQUOTE r.
Proof.
  unfold member. rewrite !append_assoc, QuoteJSONString_cons. eauto.
Qed.

Lemma join_cons2 (sep a b : string) (l : list string) :
  join sep (a :: b :: l) = a +:+ sep +:+ join sep (b :: l).
Proof. reflexivity. Qed.

Lemma members_head (sep indent : string) (m : string * value)
      (ms : list (string * value)) (rest : string) :
  exists r : string,
    join sep (List.map (member gap indent) (m :: ms)) +:+ rest = String DQUOTE r.
Proof.
  destruct ms as [|m' ms]; cbn [List.map].
  - apply member_head.
  - rewrite join_cons2, append_assoc. apply member_head.
Qed.

Lemma readMembers_join (ms : list (string * value)) :
  Forall (fun m => reads_back gap (snd m)) ms -> ms <> [] ->
  forall (w1 w2 indent rest : string) (f : nat),
    blank w1 -> blank w2 -> blank indent ->
    (String.length
       (w1 +:+ join ("," +:+ w1) (List.map (member gap indent) ms) +:+ w2 +:+ "}")
     <= f)%nat ->
    readMembers f
      (w1 +:+ join ("," +:+ w1) (List.map (member gap indent) ms) +:+ w2 +:+ "}" +:+ rest)
    = Some (ms, rest).
Proof.
  induction 1 as [|[k v] ms Hv Hms IH]; [congruence|]. intros _.
  intros w1 w2 indent rest f H1 H2 Hi Hlen.
  rewrite readMembers_blank by exact H1.
  rewrite !length_append in Hlen.
  destruct f as [|f]; [cbn in Hlen; lia|].
  destruct ms as [|m' ms].
  - cbn [List.map join]. unfold member at 1. cbn [fst snd].
    rewrite !append_assoc.
    rewrite (readMembers_member f k _ v _ _ blank_colon).
    + rewrite H2. reflexivity.
    + apply Hv; [exact Hi|].
      cbn [List.map join] in Hlen. unfold member in Hlen. cbn [fst snd] in Hlen.
      rewrite !length_append in Hlen. cbn in Hlen. cbn. lia.
  - cbn [List.map]. rewrite join_cons2. unfold member at 1. cbn [fst snd].
    rewrite !append_assoc.
    rewrite (readMembers_member f k _ v _ _ blank_colon).
    + rewrite append_cons. cbn [skipWs]. change (isWs ",") with false. cbv iota.
      change (Ascii.eqb "," ",") with true. cbv iota.
      change ("" +:+ ?x) with x.
      assert (Hrest : readMembers f
                (w1 +:+ join ("," +:+ w1) (List.map (member gap indent) (m' :: ms))
                    +:+ w2 +:+ "}" +:+ rest) = Some (m' :: ms, rest)).
      { apply IH; try assumption; [discriminate|].
        cbn [List.map] in Hlen. rewrite join_cons2 in Hlen.
        rewrite !length_append in Hlen. rewrite !length_append.
        cbn [List.map]. cbn [String.length] in *. lia. }
      cbn [List.map] in Hrest. rewrite Hrest. reflexivity.
    + apply Hv; [exact Hi|].
      cbn [List.map] in Hlen. rewrite join_cons2 in Hlen.
      unfold member in Hlen at 1. cbn [fst snd] in Hlen.
      rewrite !length_append in Hlen. cbn in Hlen. cbn. lia.
Qed.

Lemma serialize_reads_back (v : value) : reads_back gap v.
Proof.
  induction v as [s|ms IH] using value_induction; intros indent rest f Hi Hlen.
  - cbn [SerializeJSONProperty] in *.
    destruct f as [|f]; [|apply readValue_Str].
    exfalso. revert Hlen. unfold QuoteJSONString, dq.
    rewrite append_cons. cbn [String.length]. lia.
  - destruct ms as [|m ms].
    + destruct f as [|f]; [cbn in Hlen; lia | reflexivity].
    + rewrite serialize_members in *.
      destruct f as [|f]; [rewrite append_cons in Hlen; cbn in Hlen; lia|].
      rewrite !append_assoc. rewrite append_cons.
      change ("" +:+ ?x) with x.
      destruct (members_head ("," +:+ opening gap indent) (indent +:+ gap) m ms
                  (closing gap indent +:+ "}" +:+ rest)) as [r Hr].
      assert (Hsk : skipWs
                (opening gap indent +:+
                 join ("," +:+ opening gap indent)
                   (List.map (member gap (indent +:+ gap)) (m :: ms)) +:+
                 closing gap indent +:+ "}" +:+ rest) = String DQUOTE r).
      { rewrite (blank_opening indent Hi), Hr. reflexivity. }
      rewrite readValue_brace, Hsk.
      change (Ascii.eqb DQUOTE "}") with false. cbv iota.
      rewrite (readMembers_join (m :: ms) IH); try reflexivity.
      * discriminate.
      * apply blank_opening, Hi.
      * apply blank_closing, Hi.
      * apply blank_append; assumption.
      * rewrite append_cons in Hlen. cbn [String.length] in Hlen.
        change ("" +:+ ?x) with x in Hlen.
        rewrite !length_append in *. cbn [String.length] in *. lia.
Qed.

End RoundTrip.

(** [JSON.parse (JSON.stringify v space) = v], for every value and
    every indentation. *)
Lemma parse_stringify (v : JSON.value) (space : nat) :
  JSONRead.parse (JSON.stringify v space) = Some v.
Proof.
  unfold JSONRead.parse, JSON.stringify.
  pose proof (serialize_reads_back _ (blank_spaces (Nat.min 10 space)) v ""
                "" _ blank_empty (Nat.le_refl _)) as H.
  rewrite append_nil_r in H. rewrite H. reflexivity.
Qed.

(** ** Traces *)

Lemma existsb_lookup (A : event -> bool) (tr : list event) (i : nat) (a : event) :
  tr !! i = Some a -> A a = true -> existsb A tr = true.
Proof.
  revert i. induction tr as [|e r IH]; intros i Hi Ha; [discriminate|].
  cbn [existsb]. destruct i as [|i].
  - injection Hi as ->. rewrite Ha. reflexivity.
  - rewrite (IH i Hi Ha). apply orb_true_r.
Qed.

Lemma precedesb_sound (A B : event -> bool) (tr : list event) :
  precedesb A B tr = true -> precedes A B tr.
Proof.
  induction tr as [|e r IH]; intros H i j a b Hi Hj Ha Hb; [discriminate|].
  cbn [precedesb] in H. apply andb_true_iff in H as [He Hr].
  destruct j as [|j].
  - injection Hj as ->. rewrite Hb in He.
    rewrite (existsb_lookup A (b :: r) i a Hi Ha) in He. discriminate.
  - destruct i as [|i]; [lia|].
    apply (proj1 (Nat.succ_lt_mono i j)). exact (IH Hr i j a b Hi Hj Ha Hb).
Qed.

Lemma precededb_sound_from (A B : event -> bool) (tr : list event) (seen : bool) :
  precededb A B seen tr = true ->
  forall (j : nat) (b : event),
    tr !! j = Some b -> B b = true ->
    seen = true \/
    exists (i : nat) (a : event), (i < j)%nat /\ tr !! i = Some a /\ A a = true.
Proof.
  revert seen. induction tr as [|e r IH]; intros seen H j b Hj Hb; [discriminate|].
  cbn [precededb] in H. apply andb_true_iff in H as [He Hr].
  destruct j as [|j].
  - injection Hj as ->. rewrite Hb in He. left. exact He.
  - destruct (IH _ Hr j b Hj Hb) as [Hs | (i & a & Hlt & Hi & Ha)].
    + apply orb_true_iff in Hs as [Hs | Hs]; [left; exact Hs|].
      right. exists 0%nat, e. repeat split; [lia | exact Hs].
    + right. exists (S i), a. repeat split; [lia | exact Hi | exact Ha].
Qed.

Lemma precededb_sound (A B : event -> bool) (tr : list event) :
  precededb A B false tr = true -> preceded A B tr.
Proof.
  intros H j b Hj Hb.
  destruct (precededb_sound_from A B tr false H j b Hj Hb) as [Hs | Hs];
    [discriminate | exact Hs].
Qed.

(** ** What a run writes *)

(** A subprocess that leaves the path [p] in place. *)
Lemma exists_put_below (p r : path) (c t : Fs.node) :
  Fs.exists_ p t = true -> Fs.exists_ p (Fs.put (p ++ r) c t) = true.
Proof.
  unfold Fs.exists_. destruct (Fs.walk p t) as [s|e] eqn:W; [|discriminate].
  intros _. rewrite (put_app p r c s t W), (walk_put p _ s t W). reflexivity.
Qed.

(** Every run writes none of the four files or all of them. *)
Lemma written_artifacts (cwd : path) (npm : string -> path -> Fs.node -> Fs.node * Z)
      (argv : list string) (t : Fs.node) :
  let r := main cwd npm argv t in
  (written (trace_of r) = [] /\ exitCode (outcome_of r) <> 0%Z) \/
  (exists name : string,
     skipn 2 argv !! 0%nat = Some name /\
     written (trace_of r) = artifacts (resolve cwd name) name).
Proof.
  intros r. subst r.
  destruct (main_shape cwd npm argv t) as
    [ H0
    | name Hn Hne He
    | name e Hn Hne He Hmk
    | name p t1 i Hn Hne Hp He Hmk Ht1 Hw Hi Si
    | name p t1 i b Hn Hne Hp He Hmk Ht1 Hw Hi Si Hb Sb
    | name p t1 i b Hn Hne Hp He Hmk Ht1 Hw Hi Si Hb Sb ];
    cbn [trace_of outcome_of exitCode].
  1-3: left; split; [reflexivity | discriminate].
  all: right; exists name; subst p; split; [exact Hn | reflexivity].
Qed.

Lemma In_written (tr : list event) (p : path) (data : string) :
  In (EWrite p data) tr <-> In (p, data) (written tr).
Proof.
  induction tr as [|e tr IH]; [reflexivity|].
  destruct e; cbn [written In]; rewrite <- IH; intuition congruence.
Qed.

Lemma artifacts_inv (p : path) (name : string) (f : path) (data : string) :
  In (p ++ f, data) (artifacts p name) ->
  (f = ["index.html"] /\ data = JS.trim (indexHtml name)) \/
  (f = ["src"; "app.js"] /\ data = JS.trim appJs) \/
  (f = ["webpack.config.js"] /\ data = JS.trim webpackConfig) \/
  (f = ["package.json"] /\ data = JSON.stringify (pkg name) 2).
Proof.
  unfold artifacts. cbn [In].
  intros [H | [H | [H | [H | []]]]]; injection H as H <-;
    apply app_inv_head in H; subst f; tauto.
Qed.

(** What a run writes at the place [f] of its project directory. *)
Lemma written_at (cwd : path) (npm : string -> path -> Fs.node -> Fs.node * Z)
      (argv : list string) (t : Fs.node) (name : string) (f : path) (data : string) :
  skipn 2 argv !! 0%nat = Some name ->
  In (EWrite (resolve cwd name ++ f) data) (trace_of (main cwd npm argv t)) ->
  (f = ["index.html"] /\ data = JS.trim (indexHtml name)) \/
  (f = ["src"; "app.js"] /\ data = JS.trim appJs) \/
  (f = ["webpack.config.js"] /\ data = JS.trim webpackConfig) \/
  (f = ["package.json"] /\ data = JSON.stringify (pkg name) 2).
Proof.
  intros Hn Hin. apply In_written in Hin.
  destruct (written_artifacts cwd npm argv t) as [[Hw _] | (name' & Hn' & Hw)];
    rewrite Hw in Hin; [contradiction|].
  rewrite Hn in Hn'. injection Hn' as <-.
  exact (artifacts_inv (resolve cwd name) name f data Hin).
Qed.

(** A run that exits with status 0 has written the four files. *)
Lemma success_written (cwd : path) (npm : string -> path -> Fs.node -> Fs.node * Z)
      (argv : list string) (t : Fs.node) :
  exitCode (outcome_of (main cwd npm argv t)) = 0%Z ->
  exists name : string,
    skipn 2 argv !! 0%nat = Some name /\
    written (trace_of (main cwd npm argv t)) = artifacts (resolve cwd name) name.
Proof.
  intros Hx.
  destruct (written_artifacts cwd npm argv t) as [[_ H] | H];
    [contradiction | exact H].
Qed.

Lemma segments_plain (s : string) :
  (forall a b : string, s <> a +:+ String "/" b) -> segments s = [s].
Proof.
  induction s as [|c s IH]; intros H; [reflexivity|].
  cbn [segments]. destruct (Ascii.eqb c "/") eqn:E.
  - apply Ascii.eqb_eq in E. subst c. exfalso. apply (H "" s). reflexivity.
  - rewrite IH; [reflexivity|].
    intros a b ->. apply (H (String c a) b). reflexivity.
Qed.

(** A name without separator that is not [.] or [..] resolves to an
    entry of the working directory, so that the parent directory of the
    target is the working directory itself. *)
Lemma resolve_plain (cwd : path) (name : string) :
  (forall a b : string, name <> a +:+ String "/" b) ->
  name <> "" -> name <> "." -> name <> ".." ->
  resolve cwd name = cwd ++ [name] /\ split_last (resolve cwd name) = Some (cwd, name).
Proof.
  intros Hs H0 H1 H2.
  assert (Hr : resolve cwd name = cwd ++ [name]).
  { unfold resolve. rewrite (segments_plain name Hs).
    assert (Ha : isAbsolute name = false).
    { destruct name as [|c s]; [reflexivity|]. cbn [isAbsolute].
      destruct (Ascii.eqb c "/") eqn:E; [|reflexivity].
      apply Ascii.eqb_eq in E. subst c. exfalso. apply (Hs "" s). reflexivity. }
    rewrite Ha. cbn [fold_left]. unfold enter.
    apply String.eqb_neq in H0, H1, H2. rewrite H0, H1, H2. reflexivity. }
  split; [exact Hr|]. rewrite Hr. apply split_last_snoc.
Qed.

(** * The claims *)




(** C2. When an entry already exists at the target path, the generator
    prints [Folder <name> already exists.] on the standard error and
    exits with status 1; it has made one call, the existence check, so
    no directory or file is created or written and the file system is
    unchanged.  Consequently, when the subprocesses leave the project
    directory in place, the second of two runs with the same name exits
    with a non-zero status, writes nothing and leaves the file system
    as the first run left it; when the first run has created the
    project, the second is rejected by the guard. *)
Theorem existing_path_rejected (cwd : path)
        (npm : string -> path -> Fs.node -> Fs.node * Z)
        (name : string) (t : Fs.node) :
  let p := resolve cwd name in
  (Fs.exists_ p t = true -> rejected p name t (createProject cwd npm name t)) /\
  (forall argv : list string,
     skipn 2 argv !! 0%nat = Some name -> name <> "" ->
     (Fs.exists_ p t = true -> rejected p name t (main cwd npm argv t)) /\
     ((forall (cmd : string) (t' : Fs.node),
         Fs.exists_ p t' = true -> Fs.exists_ p (fst (npm cmd p t')) = true) ->
      let first := main cwd npm argv t in
      let second := main cwd npm argv (fs_of first) in
      exitCode (outcome_of second) <> 0%Z /\
      written (trace_of second) = [] /\
      fs_of second = fs_of first /\
      (written (trace_of first) <> [] ->
       rejected p name (fs_of first) second))).
Proof.
  intros p.
  assert (Hrej : forall t0, Fs.exists_ p t0 = true ->
                            rejected p name t0 (createProject cwd npm name t0)).
  { intros t0 He. unfold rejected, createProject. fold p.
    erewrite bind_Return; [|unfold existsSync; rewrite He; reflexivity].
    erewrite bind_Exit; [|reflexivity].
    cbn [outcome_of fs_of trace_of after app exitCode].
    repeat split; try discriminate. repeat constructor. }
  split; [apply Hrej|].
  intros argv Hn Hne.
  assert (Hmain : forall t0, main cwd npm argv t0 = createProject cwd npm name t0).
  { intros t0. unfold main. rewrite Hn.
    apply String.eqb_neq in Hne. rewrite Hne. reflexivity. }
  split; [intros He; rewrite Hmain; apply Hrej, He|].
  intros Hkeep first second.
  assert (Hguard : Fs.exists_ p (fs_of first) = true ->
                   exitCode (outcome_of second) <> 0%Z /\
                   written (trace_of second) = [] /\
                   fs_of second = fs_of first /\
                   rejected p name (fs_of first) second).
  { intros Hex. subst second. rewrite Hmain.
    pose proof (Hrej _ Hex) as Hr.
    destruct Hr as (Ho & Hx & Htr & Hnone & Hfs).
    repeat split; try assumption. rewrite Htr. reflexivity. }
  assert (Hcreated : forall t1 : Fs.node,
            Fs.walk p t1 = Fs.Ok (projectTree name) -> Fs.exists_ p t1 = true).
  { intros t1 Hw. unfold Fs.exists_. rewrite Hw. reflexivity. }
  pose proof (main_shape cwd npm argv t) as Hs. fold first in Hs.
  subst second. remember first as r1 eqn:Hr1. unfold first in Hr1.
  destruct Hs as
    [ [H0 | H0]
    | name' Hn' Hne' He'
    | name' e Hn' Hne' He' Hmk'
    | name' p' t1 i Hn' Hne' Hp' He' Hmk' Ht1' Hw' Hi' Si
    | name' p' t1 i b Hn' Hne' Hp' He' Hmk' Ht1' Hw' Hi' Si Hb' Sb
    | name' p' t1 i b Hn' Hne' Hp' He' Hmk' Ht1' Hw' Hi' Si Hb' Sb ];
    try (rewrite Hn in H0; congruence);
    rewrite Hn in Hn'; injection Hn' as <-.
  - cbn [fs_of trace_of written]. rewrite <- Hr1.
    cbn [outcome_of fs_of trace_of exitCode written].
    split; [discriminate|]. split; [reflexivity|]. split; [reflexivity|].
    intros H. contradiction.
  - cbn [fs_of trace_of written]. rewrite <- Hr1.
    cbn [outcome_of fs_of trace_of exitCode written].
    split; [discriminate|]. split; [reflexivity|]. split; [reflexivity|].
    intros H. contradiction.
  - fold p in Hp'. subst p'. cbn [fs_of] in Hguard |- *.
    assert (Hex : Fs.exists_ p (fst i) = true).
    { subst i. apply Hkeep, Hcreated, Hw'. }
    destruct (Hguard Hex) as (H1 & H2 & H3 & H4). auto.
  - fold p in Hp'. subst p'. cbn [fs_of] in Hguard |- *.
    assert (Hex : Fs.exists_ p (fst b) = true).
    { subst b i. apply Hkeep, Hkeep, Hcreated, Hw'. }
    destruct (Hguard Hex) as (H1 & H2 & H3 & H4). auto.
  - fold p in Hp'. subst p'. cbn [fs_of] in Hguard |- *.
    assert (Hex : Fs.exists_ p (fst b) = true).
    { subst b i. apply Hkeep, Hkeep, Hcreated, Hw'. }
    destruct (Hguard Hex) as (H1 & H2 & H3 & H4). auto.
Qed.

(** Two runs in a row for the project [demo]: the first succeeds, the
    second is rejected. *)
Lemma existing_path_rejected_witness :
  let argv := Sample.argv "demo" in
  let p := resolve Sample.home "demo" in
  let first := main Sample.home Sample.npm argv Sample.disk in
  let second := main Sample.home Sample.npm argv (fs_of first) in
  exitCode (outcome_of first) = 0%Z /\
  Fs.exists_ p (fs_of first) = true /\
  rejected p "demo" (fs_of first)
    (createProject Sample.home Sample.npm "demo" (fs_of first)) /\
  rejected p "demo" (fs_of first) second /\
  exitCode (outcome_of second) <> 0%Z /\
  written (trace_of second) = [] /\
  fs_of second = fs_of first.
Proof.
  intros argv p first second.
  assert (Hne : "demo" <> "") by discriminate.
  assert (Hex : Fs.exists_ p (fs_of first) = true) by (vm_compute; reflexivity).
  assert (Hkeep : forall (cmd : string) (t' : Fs.node),
             Fs.exists_ p t' = true ->
             Fs.exists_ p (fst (Sample.npm cmd p t')) = true).
  { intros cmd t' H. unfold Sample.npm.
    destruct (String.eqb cmd "npm install"); cbn [fst];
      repeat apply exists_put_below; exact H. }
  destruct (existing_path_rejected Sample.home Sample.npm "demo" (fs_of first))
    as [Hcreate Hmain].
  destruct (Hmain argv eq_refl Hne) as [Hrej _].
  destruct (existing_path_rejected Sample.home Sample.npm "demo" Sample.disk)
    as [_ Htwice].
  destruct (Htwice argv eq_refl Hne) as [_ Hsecond].
  destruct (Hsecond Hkeep) as (H1 & H2 & H3 & _).
  split; [vm_compute; reflexivity|].
  split; [exact Hex|].
  split; [exact (Hcreate Hex)|].
  split; [exact (Hrej Hex)|].
  split; [exact H1|]. split; [exact H2 | exact H3].
Defined.

(** C3. With no positional argument the script prints the usage
    message on the standard error, exits with status 1 and makes no
    call to the file system: the trace is that one line and the
    file system is the one it started with. *)
Theorem no_argument_usage (cwd : path) (npm : string -> path -> Fs.node -> Fs.node * Z)
        (argv : list string) (t : Fs.node) :
  skipn 2 argv = [] ->
  let r := main cwd npm argv t in
  outcome_of r = Exit 1 /\
  exitCode (outcome_of r) <> 0%Z /\
  trace_of r = [EStderr "Usage: npm create nodality <project-name>"] /\
  Forall (fun e => isCheck e = false /\ isMutation e = false /\ isExec e = false)
         (trace_of r) /\
  fs_of r = t.
Proof.
  intros Hargs r. subst r. unfold main. rewrite Hargs. cbn [lookup list_lookup].
  repeat split; try discriminate.
  repeat constructor.
Qed.

(** The script started without argument. *)
Lemma no_argument_usage_witness :
  let r := main Sample.home Sample.npm ["/usr/bin/node"; "index.js"] Sample.disk in
  outcome_of r = Exit 1 /\
  exitCode (outcome_of r) <> 0%Z /\
  trace_of r = [EStderr "Usage: npm create nodality <project-name>"] /\
  Forall (fun e => isCheck e = false /\ isMutation e = false /\ isExec e = false)
         (trace_of r) /\
  fs_of r = Sample.disk.
Proof.
  apply (no_argument_usage Sample.home Sample.npm
           ["/usr/bin/node"; "index.js"] Sample.disk).
  reflexivity.
Defined.

(** C4. In a run that exits with status 0, the text written to
    [package.json] parses as an object whose [scripts] are exactly
    [build], [watch], [start] and [dev], whose [dependencies] have one
    entry, and whose [devDependencies] are the nine fixed packages,
    each with a caret range. *)
Theorem manifest_scripts_and_dependencies (cwd : path)
        (npm : string -> path -> Fs.node -> Fs.node * Z)
        (argv : list string) (t : Fs.node) :
  let r := main cwd npm argv t in
  exitCode (outcome_of r) = 0%Z ->
  exists (name text : string) (manifest scripts : JSON.value)
         (deps devDeps : list (string * JSON.value)),
    skipn 2 argv !! 0%nat = Some name /\
    In (EWrite (resolve cwd name ++ ["package.json"]) text) (trace_of r) /\
    JSONRead.parse text = Some manifest /\
    JSON.field "scripts" manifest = Some scripts /\
    JSON.keys scripts = ["build"; "watch"; "start"; "dev"] /\
    JSON.field "dependencies" manifest = Some (JSON.Obj deps) /\
    List.length deps = 1%nat /\
    JSON.field "devDependencies" manifest = Some (JSON.Obj devDeps) /\
    List.map fst devDeps =
      [ "@babel/core"; "@babel/preset-env"; "babel-loader"; "live-server";
        "npm-run-all"; "serve"; "webpack"; "webpack-cli"; "webpack-dev-server" ] /\
    List.length devDeps = 9%nat /\
    Forall (fun m => exists range : string,
                       snd m = JSON.Str range /\ caretRange range = true)
           devDeps.
Proof.
  intros r Hx. subst r.
  destruct (success_written cwd npm argv t Hx) as (name & Hn & Hw).
  exists name, (JSON.stringify (pkg name) 2), (pkg name).
  do 3 eexists.
  split; [exact Hn|].
  split; [apply In_written; rewrite Hw; cbn [artifacts In]; tauto|].
  split; [apply parse_stringify|].
  repeat (split; [reflexivity|]).
  repeat (apply List.Forall_cons; [eexists; split; reflexivity|]).
  apply List.Forall_nil.
Qed.

(** The manifest of the project [demo]. *)
Lemma manifest_scripts_and_dependencies_witness :
  let r := main Sample.home Sample.npm (Sample.argv "demo") Sample.disk in
  exists (name text : string) (manifest scripts : JSON.value)
         (deps devDeps : list (string * JSON.value)),
    skipn 2 (Sample.argv "demo") !! 0%nat = Some name /\
    In (EWrite (resolve Sample.home name ++ ["package.json"]) text) (trace_of r) /\
    JSONRead.parse text = Some manifest /\
    JSON.field "scripts" manifest = Some scripts /\
    JSON.keys scripts = ["build"; "watch"; "start"; "dev"] /\
    JSON.field "dependencies" manifest = Some (JSON.Obj deps) /\
    List.length deps = 1%nat /\
    JSON.field "devDependencies" manifest = Some (JSON.Obj devDeps) /\
    List.map fst devDeps =
      [ "@babel/core"; "@babel/preset-env"; "babel-loader"; "live-server";
        "npm-run-all"; "serve"; "webpack"; "webpack-cli"; "webpack-dev-server" ] /\
    List.length devDeps = 9%nat /\
    Forall (fun m => exists range : string,
                       snd m = JSON.Str range /\ caretRange range = true)
           devDeps.
Proof.
  apply (manifest_scripts_and_dependencies Sample.home Sample.npm
           (Sample.argv "demo") Sample.disk).
  vm_compute. reflexivity.
Defined.




(** C6. When a subprocess exits with a non-zero status, the run ends
    there as an uncaught exception, with exit status 1: the failed
    command has been run once, its event is the last of the trace (no
    retry, no clean-up, no further write), and the file system is the
    one the subprocess has left. *)
Theorem subprocess_failure_is_fatal (cwd : path)
        (npm : string -> path -> Fs.node -> Fs.node * Z)
        (argv : list string) (t : Fs.node)
        (cmd : string) (dir : path) (seen : Fs.node) (status : Z) :
  let r := main cwd npm argv t in
  In (EExec cmd dir seen status) (trace_of r) ->
  status <> 0%Z ->
  (cmd = "npm install" \/ cmd = "npm run build") /\
  outcome_of r = Throw (ChildFailed cmd status) /\
  exitCode (outcome_of r) <> 0%Z /\
  List.length (List.filter (runs cmd) (trace_of r)) = 1%nat /\
  last (trace_of r) = Some (EExec cmd dir seen status) /\
  status = snd (npm cmd dir seen) /\
  fs_of r = fst (npm cmd dir seen).
Proof.
  intros r. subst r.
  destruct (main_shape cwd npm argv t) as
    [ H0
    | name Hn Hne He
    | name e Hn Hne He Hmk
    | name p t1 i Hn Hne Hp He Hmk Ht1 Hw Hi Si
    | name p t1 i b Hn Hne Hp He Hmk Ht1 Hw Hi Si Hb Sb
    | name p t1 i b Hn Hne Hp He Hmk Ht1 Hw Hi Si Hb Sb ];
    cbn [outcome_of fs_of trace_of exitCode];
    unfold emission, usage, report; cbn [app In];
    intros Hin Hst;
    repeat (destruct Hin as [Hin | Hin]; [try discriminate Hin|]);
    try contradiction;
    injection Hin as <- <- <- <-; try contradiction.
  - rewrite Hi. repeat split; auto; discriminate.
  - rewrite Hb. repeat split; auto; discriminate.
Qed.

(** The project [demo] without network: the install fails. *)
Lemma subprocess_failure_is_fatal_witness :
  let p := resolve Sample.home "demo" in
  let seen := Fs.put p (projectTree "demo") Sample.disk in
  let r := main Sample.home Sample.npmOffline (Sample.argv "demo") Sample.disk in
  ("npm install" = "npm install" \/ "npm install" = "npm run build") /\
  outcome_of r = Throw (ChildFailed "npm install" 1) /\
  exitCode (outcome_of r) <> 0%Z /\
  List.length (List.filter (runs "npm install") (trace_of r)) = 1%nat /\
  last (trace_of r) = Some (EExec "npm install" p seen 1) /\
  1%Z = snd (Sample.npmOffline "npm install" p seen) /\
  fs_of r = fst (Sample.npmOffline "npm install" p seen).
Proof.
  apply (subprocess_failure_is_fatal Sample.home Sample.npmOffline
           (Sample.argv "demo") Sample.disk).
  - apply (List.nth_error_In _ 8). vm_compute. reflexivity.
  - discriminate.
Defined.

(** C7. In every run the pipeline order is fixed.  The existence check
    comes before every directory or file write, and no write happens
    without it; every write comes before every subprocess, and a
    subprocess starts only when the four files are written; the only
    subprocesses are [npm install] and [npm run build], the install
    comes before the build, and the build starts on the file system
    that a successful install has left. *)
Theorem pipeline_order (cwd : path) (npm : string -> path -> Fs.node -> Fs.node * Z)
        (argv : list string) (t : Fs.node) :
  let tr := trace_of (main cwd npm argv t) in
  precedes isCheck isMutation tr /\
  preceded isCheck isMutation tr /\
  precedes isMutation isExec tr /\
  (forall (j : nat) (e : event),
     tr !! j = Some e -> isExec e = true ->
     List.length (written (take j tr)) = 4%nat) /\
  precedes (runs "npm install") (runs "npm run build") tr /\
  preceded (runs "npm install") (runs "npm run build") tr /\
  (forall e : event,
     In e tr -> isExec e = true ->
     runs "npm install" e = true \/ runs "npm run build" e = true) /\
  (forall (dir : path) (seen : Fs.node) (status : Z),
     In (EExec "npm run build" dir seen status) tr ->
     exists before : Fs.node,
       In (EExec "npm install" dir before 0) tr /\
       seen = fst (npm "npm install" dir before)).
Proof.
  intros tr. subst tr.
  destruct (main_shape cwd npm argv t) as
    [ H0
    | name Hn Hne He
    | name e Hn Hne He Hmk
    | name p t1 i Hn Hne Hp He Hmk Ht1 Hw Hi Si
    | name p t1 i b Hn Hne Hp He Hmk Ht1 Hw Hi Si Hb Sb
    | name p t1 i b Hn Hne Hp He Hmk Ht1 Hw Hi Si Hb Sb ];
    cbn [trace_of].
  all: repeat match goal with
       | |- _ /\ _ => split
       | |- precedes _ _ _ => apply precedesb_sound; reflexivity
       | |- preceded _ _ _ => apply precededb_sound; reflexivity
       end.
  all: unfold emission, usage, report; cbn [app].
  all: try (intros j; match type of j with nat => idtac end;
            intros ev Hj Hx;
            repeat (cbn [lookup list_lookup] in Hj;
                    first
                      [ discriminate Hj
                      | destruct j as [|j];
                        [ cbn [lookup list_lookup] in Hj; injection Hj as <-;
                          first [discriminate Hx | reflexivity] | ] ])).
  all: try (intros ev; match type of ev with event => idtac end;
            intros Hin Hx; cbn [In] in Hin;
            repeat (destruct Hin as [<- | Hin]; [first [discriminate Hx | auto]|]);
            contradiction).
  all: intros dir seen status Hin; cbn [In] in Hin;
    repeat (destruct Hin as [Hin | Hin]; [try discriminate Hin|]);
    try contradiction.
  - injection Hin as <- <- <-. exists t1. split.
    + rewrite Si. cbn [In]. tauto.
    + rewrite Hi. reflexivity.
  - injection Hin as <- <- <-. exists t1. split.
    + rewrite Si. cbn [In]. tauto.
    + rewrite Hi. reflexivity.
Qed.

(** C8. In a run that exits with status 0 for the project name [n],
    the [name] field of the manifest written to [package.json] is [n],
    and in the document written to [index.html] the first [<title>]
    tag is followed by [n] and the closing tag. *)
Theorem name_in_manifest_and_title (cwd : path)
        (npm : string -> path -> Fs.node -> Fs.node * Z)
        (argv : list string) (t : Fs.node) :
  let r := main cwd npm argv t in
  exitCode (outcome_of r) = 0%Z ->
  exists (name text html tail : string) (manifest : JSON.value),
    skipn 2 argv !! 0%nat = Some name /\
    In (EWrite (resolve cwd name ++ ["package.json"]) text) (trace_of r) /\
    JSONRead.parse text = Some manifest /\
    JSON.field "name" manifest = Some (JSON.Str name) /\
    In (EWrite (resolve cwd name ++ ["index.html"]) html) (trace_of r) /\
    textAfter "<title>" html = Some (name +:+ "</title>" +:+ tail).
Proof.
  intros r Hx. subst r.
  destruct (success_written cwd npm argv t Hx) as (name & Hn & Hw).
  destruct indexHtml_frame as (head & tail & Hframe).
  destruct (Hframe name) as [_ Htitle].
  exists name, (JSON.stringify (pkg name) 2), (JS.trim (indexHtml name)), tail,
    (pkg name).
  split; [exact Hn|].
  split; [apply In_written; rewrite Hw; cbn [artifacts In]; tauto|].
  split; [apply parse_stringify|].
  split; [reflexivity|].
  split; [apply In_written; rewrite Hw; cbn [artifacts In]; tauto|].
  exact Htitle.
Qed.

(** The name [demo] in the manifest and in the title. *)
Lemma name_in_manifest_and_title_witness :
  let r := main Sample.home Sample.npm (Sample.argv "demo") Sample.disk in
  exists (name text html tail : string) (manifest : JSON.value),
    skipn 2 (Sample.argv "demo") !! 0%nat = Some name /\
    In (EWrite (resolve Sample.home name ++ ["package.json"]) text) (trace_of r) /\
    JSONRead.parse text = Some manifest /\
    JSON.field "name" manifest = Some (JSON.Str name) /\
    In (EWrite (resolve Sample.home name ++ ["index.html"]) html) (trace_of r) /\
    textAfter "<title>" html = Some (name +:+ "</title>" +:+ tail).
Proof.
  apply (name_in_manifest_and_title Sample.home Sample.npm
           (Sample.argv "demo") Sample.disk).
  vm_compute. reflexivity.
Defined.

(** C9. The bytes written to [src/app.js] and to [webpack.config.js]
    are the same in any two runs, whatever the two project names, the
    working directories, the file systems and the subprocesses: they
    are the two constants [JS.trim appJs] and [JS.trim webpackConfig]. *)
Theorem stub_and_config_independent_of_name
        (cwd1 cwd2 : path)
        (npm1 npm2 : string -> path -> Fs.node -> Fs.node * Z)
        (argv1 argv2 : list string) (t1 t2 : Fs.node)
        (name1 name2 : string) (f : path) (data1 data2 : string) :
  skipn 2 argv1 !! 0%nat = Some name1 ->
  skipn 2 argv2 !! 0%nat = Some name2 ->
  f = ["src"; "app.js"] \/ f = ["webpack.config.js"] ->
  In (EWrite (resolve cwd1 name1 ++ f) data1) (trace_of (main cwd1 npm1 argv1 t1)) ->
  In (EWrite (resolve cwd2 name2 ++ f) data2) (trace_of (main cwd2 npm2 argv2 t2)) ->
  data1 = data2 /\
  data1 = (if decide (f = ["src"; "app.js"]) then JS.trim appJs
           else JS.trim webpackConfig).
Proof.
  intros Hn1 Hn2 Hf H1 H2.
  apply (written_at _ _ _ _ _ _ _ Hn1) in H1.
  apply (written_at _ _ _ _ _ _ _ Hn2) in H2.
  destruct Hf as [-> | ->].
  - destruct H1 as [[E _] | [[_ ->] | [[E _] | [E _]]]]; try discriminate E.
    destruct H2 as [[E _] | [[_ ->] | [[E _] | [E _]]]]; try discriminate E.
    split; reflexivity.
  - destruct H1 as [[E _] | [[E _] | [[_ ->] | [E _]]]]; try discriminate E.
    destruct H2 as [[E _] | [[E _] | [[_ ->] | [E _]]]]; try discriminate E.
    split; reflexivity.
Qed.

(** The stub of the projects [demo] and [shop], in two different
    environments. *)
Lemma stub_and_config_independent_of_name_witness :
  JS.trim appJs = JS.trim appJs /\
  JS.trim appJs =
    (if decide (["src"; "app.js"] = ["src"; "app.js"]) then JS.trim appJs
     else JS.trim webpackConfig).
Proof.
  apply (stub_and_config_independent_of_name
           Sample.home ["srv"] Sample.npm Sample.npmOffline
           (Sample.argv "demo") (Sample.argv "shop") Sample.disk
           (Fs.Dir {[ "srv" := Fs.Dir ∅ ]})
           "demo" "shop" ["src"; "app.js"]).
  - reflexivity.
  - reflexivity.
  - left. reflexivity.
  - apply (List.nth_error_In _ 4). vm_compute. reflexivity.
  - apply (List.nth_error_In _ 4). vm_compute. reflexivity.
Defined.

(** C10. Generation is deterministic: two runs with the same project
    name write the same bytes to each file of the project, whatever the
    working directories, the other arguments, the file systems and the
    subprocesses of the two runs. *)
Theorem generation_deterministic
        (cwd1 cwd2 : path)
        (npm1 npm2 : string -> path -> Fs.node -> Fs.node * Z)
        (argv1 argv2 : list string) (t1 t2 : Fs.node)
        (name : string) (f : path) (data1 data2 : string) :
  skipn 2 argv1 !! 0%nat = Some name ->
  skipn 2 argv2 !! 0%nat = Some name ->
  In (EWrite (resolve cwd1 name ++ f) data1) (trace_of (main cwd1 npm1 argv1 t1)) ->
  In (EWrite (resolve cwd2 name ++ f) data2) (trace_of (main cwd2 npm2 argv2 t2)) ->
  data1 = data2.
Proof.
  intros Hn1 Hn2 H1 H2.
  apply (written_at _ _ _ _ _ _ _ Hn1) in H1.
  apply (written_at _ _ _ _ _ _ _ Hn2) in H2.
  destruct H1 as [[-> ->] | [[-> ->] | [[-> ->] | [-> ->]]]];
    destruct H2 as [[E ->] | [[E ->] | [[E ->] | [E ->]]]];
    first [reflexivity | discriminate E].
Qed.

(** The manifest of the project [demo], in two different environments. *)
Lemma generation_deterministic_witness :
  JSON.stringify (pkg "demo") 2 = JSON.stringify (pkg "demo") 2.
Proof.
  apply (generation_deterministic
           Sample.home ["srv"] Sample.npm Sample.npmOffline
           (Sample.argv "demo") (Sample.argv "demo") Sample.disk
           (Fs.Dir {[ "srv" := Fs.Dir ∅ ]})
           "demo" ["package.json"]).
  - reflexivity.
  - reflexivity.
  - apply (List.nth_error_In _ 6). vm_compute. reflexivity.
  - apply (List.nth_error_In _ 6). vm_compute. reflexivity.
Defined.

(** * Further properties of the script *)

(** ** Paths, directories and the shapes of a run *)






Lemma exists_prefix (p r : path) (t : Fs.node) :
  Fs.exists_ (p ++ r) t = true -> Fs.exists_ p t = true.
Proof.
  unfold Fs.exists_. rewrite walk_app.
  destruct (Fs.walk p t); [reflexivity | discriminate].
Qed.

Lemma removelast_prefix (p : path) : exists r : path, p = removelast p ++ r.
Proof.
  destruct p as [|a p]; [exists []; reflexivity|].
  exists [List.last (a :: p) ""]. apply app_removelast_last. discriminate.
Qed.

(** Climbing never leaves the way from the root to the start. *)
Lemma climb_prefix (segs : list string) (p : path) :
  forallb (fun s => String.eqb s "" || String.eqb s "." || String.eqb s "..")
          segs = true ->
  exists r : path, p = fold_left enter segs p ++ r.
Proof.
  revert p. induction segs as [|s segs IH]; intros p H.
  - exists []. cbn. rewrite app_nil_r. reflexivity.
  - cbn [forallb] in H. apply andb_true_iff in H as [Hs H].
    cbn [fold_left]. unfold enter at 2. revert Hs.
    destruct (String.eqb s "" || String.eqb s "."); [intros _; apply IH, H|].
    cbn [orb]. intros Hs. rewrite Hs.
    destruct (IH (removelast p) H) as [r Hr].
    destruct (removelast_prefix p) as [r' Hr'].
    exists (r ++ r'). rewrite app_assoc, <- Hr. exact Hr'.
Qed.

Ltac run_shapes cwd npm argv t :=
  destruct (main_shape cwd npm argv t) as
    [ H0
    | name Hn Hne He
    | name e Hn Hne He Hmk
    | name p t1 i Hn Hne Hp He Hmk Ht1 Hw Hi Si
    | name p t1 i b Hn Hne Hp He Hmk Ht1 Hw Hi Si Hb Sb
    | name p t1 i b Hn Hne Hp He Hmk Ht1 Hw Hi Si Hb Sb ].

(** The subprocesses of a run: none, the install alone, or the install
    and then the build, each started in the project directory. *)
Lemma spawned_cases (cwd : path) (npm : string -> path -> Fs.node -> Fs.node * Z)
      (argv : list string) (t : Fs.node) :
  let r := main cwd npm argv t in
  (spawned (trace_of r) = [] /\ fs_of r = t /\ written (trace_of r) = []) \/
  (exists (name : string) (t1 : Fs.node),
     skipn 2 argv !! 0%nat = Some name /\
     let p := resolve cwd name in
     let install := npm "npm install" p t1 in
     t1 = Fs.put p (projectTree name) t /\
     Fs.walk p t1 = Fs.Ok (projectTree name) /\
     In (EExec "npm install" p t1 (snd install)) (trace_of r) /\
     (forall (dir : path) (seen : Fs.node) (status : Z),
        In (EExec "npm install" dir seen status) (trace_of r) ->
        dir = p /\ seen = t1 /\ status = snd install) /\
     ((snd install <> 0%Z /\ spawned (trace_of r) = [("npm install", p)]) \/
      (snd install = 0%Z /\
       spawned (trace_of r) = [("npm install", p); ("npm run build", p)]))).
Proof.
  intros r. subst r. run_shapes cwd npm argv t; cbn [trace_of fs_of].
  1-3: left; repeat split; reflexivity.
  all: right; exists name, t1; subst p; cbn zeta;
    (split; [exact Hn|]); (split; [exact Ht1|]); (split; [exact Hw|]);
    rewrite <- Hi; unfold emission, report; cbn [app In spawned].
  all: split; [repeat (first [left; reflexivity | right])|].
  all: split;
    [ intros dir seen status Hin;
      repeat (destruct Hin as [Hin | Hin]; [try discriminate Hin|]);
      try contradiction; injection Hin as <- <- <-; auto
    | ].
  - left. split; [exact Si | reflexivity].
  - right. split; [exact Si | reflexivity].
  - right. split; [exact Si | reflexivity].
Qed.

Lemma In_spawned (tr : list event) (cmd : string) (dir : path)
      (seen : Fs.node) (status : Z) :
  In (EExec cmd dir seen status) tr -> In (cmd, dir) (spawned tr).
Proof.
  induction tr as [|e tr IH]; [intros []|].
  intros [-> | H]; [left; reflexivity|].
  destruct e; cbn [spawned]; auto. right. auto.
Qed.

(** ** The properties *)

(** X1. An empty first argument counts as no argument: the script
    prints the usage line, exits with status 1 and makes no call to the
    file system, whatever arguments follow. *)
Theorem empty_argument_usage (cwd : path)
        (npm : string -> path -> Fs.node -> Fs.node * Z)
        (argv : list string) (t : Fs.node) :
  skipn 2 argv !! 0%nat = Some "" ->
  let r := main cwd npm argv t in
  outcome_of r = Exit 1 /\
  trace_of r = [EStderr "Usage: npm create nodality <project-name>"] /\
  fs_of r = t.
Proof.
  intros H r. subst r. unfold main. rewrite H. repeat split.
Qed.

(** An empty first argument followed by a name. *)
Lemma empty_argument_usage_witness :
  let r := main Sample.home Sample.npm
             ["/usr/bin/node"; "index.js"; ""; "demo"] Sample.disk in
  outcome_of r = Exit 1 /\
  trace_of r = [EStderr "Usage: npm create nodality <project-name>"] /\
  fs_of r = Sample.disk.
Proof.
  apply (empty_argument_usage Sample.home Sample.npm
           ["/usr/bin/node"; "index.js"; ""; "demo"] Sample.disk).
  reflexivity.
Defined.

(** X2. A name that only climbs ([.], [..], [../..], [/] and the like)
    never yields a project: when the working directory exists, the
    target is the working directory or a directory above it, and the
    run is rejected by the guard. *)
Theorem climbing_name_rejected (cwd : path)
        (npm : string -> path -> Fs.node -> Fs.node * Z)
        (argv : list string) (name : string) (t : Fs.node) :
  skipn 2 argv !! 0%nat = Some name -> name <> "" ->
  climbs name = true ->
  Fs.exists_ cwd t = true ->
  (exists r : path, cwd = resolve cwd name ++ r \/ resolve cwd name = []) /\
  rejected (resolve cwd name) name t (main cwd npm argv t).
Proof.
  intros Hn Hne Hc Hcwd.
  assert (Hp : exists r : path, cwd = resolve cwd name ++ r \/ resolve cwd name = []).
  { unfold resolve. destruct (isAbsolute name).
    - destruct (climb_prefix (segments name) [] Hc) as [r Hr].
      exists r. right. destruct (fold_left enter (segments name) []);
        [reflexivity | discriminate].
    - destruct (climb_prefix (segments name) cwd Hc) as [r Hr].
      exists r. left. exact Hr. }
  split; [exact Hp|].
  assert (Hex : Fs.exists_ (resolve cwd name) t = true).
  { destruct Hp as [r [Hr | Hr]].
    - apply (exists_prefix _ r). rewrite <- Hr. exact Hcwd.
    - rewrite Hr. reflexivity. }
  destruct (main_shape cwd npm argv t) as
    [ [H0 | H0]
    | name' Hn' Hne' He'
    | name' e Hn' Hne' He' Hmk'
    | name' p' t1 i Hn' Hne' Hp' He' Hmk' Ht1' Hw' Hi' Si
    | name' p' t1 i b Hn' Hne' Hp' He' Hmk' Ht1' Hw' Hi' Si Hb' Sb
    | name' p' t1 i b Hn' Hne' Hp' He' Hmk' Ht1' Hw' Hi' Si Hb' Sb ];
    try (rewrite Hn in H0; congruence);
    rewrite Hn in Hn'; injection Hn' as <-; try subst p'; try congruence.
  unfold rejected. cbn [outcome_of trace_of fs_of exitCode].
  repeat split; try discriminate. repeat constructor.
Qed.

(** The name [..] in the home directory [/home/u]. *)
Lemma climbing_name_rejected_witness :
  (exists r : path,
     Sample.home = resolve Sample.home ".." ++ r \/ resolve Sample.home ".." = []) /\
  rejected (resolve Sample.home "..") ".." Sample.disk
    (main Sample.home Sample.npm (Sample.argv "..") Sample.disk).
Proof.
  apply (climbing_name_rejected Sample.home Sample.npm (Sample.argv "..") ".."
           Sample.disk).
  - reflexivity.
  - discriminate.
  - reflexivity.
  - reflexivity.
Defined.

(** X3. With an absolute name the working directory plays no role: the
    target path and the whole run are the same from any directory. *)
Theorem absolute_name_ignores_cwd (cwd1 cwd2 : path)
        (npm : string -> path -> Fs.node -> Fs.node * Z)
        (argv : list string) (name : string) (t : Fs.node) :
  skipn 2 argv !! 0%nat = Some name ->
  isAbsolute name = true ->
  resolve cwd1 name = resolve cwd2 name /\
  main cwd1 npm argv t = main cwd2 npm argv t.
Proof.
  intros Hn Ha.
  assert (Hr : resolve cwd1 name = resolve cwd2 name).
  { unfold resolve. rewrite Ha. reflexivity. }
  split; [exact Hr|].
  unfold main. rewrite Hn. destruct (String.eqb name ""); [reflexivity|].
  unfold createProject. rewrite Hr. reflexivity.
Qed.

(** The name [/home/u/demo] from [/home/u] and from [/etc]. *)
Lemma absolute_name_ignores_cwd_witness :
  resolve Sample.home "/home/u/demo" = resolve ["etc"] "/home/u/demo" /\
  main Sample.home Sample.npm (Sample.argv "/home/u/demo") Desk.disk =
  main ["etc"] Sample.npm (Sample.argv "/home/u/demo") Desk.disk.
Proof.
  apply (absolute_name_ignores_cwd Sample.home ["etc"] Sample.npm
           (Sample.argv "/home/u/demo") "/home/u/demo" Desk.disk).
  - reflexivity.
  - reflexivity.
Defined.





(** X6. What the generator has written can be read back when the install
    starts: every path it wrote leads to a file with the bytes written
    there, and the [src] directory holds [app.js] alone. *)
Theorem written_files_read_back (cwd : path)
        (npm : string -> path -> Fs.node -> Fs.node * Z)
        (argv : list string) (t : Fs.node)
        (dir : path) (seen : Fs.node) (status : Z) :
  let r := main cwd npm argv t in
  In (EExec "npm install" dir seen status) (trace_of r) ->
  (forall (q : path) (data : string),
     In (EWrite q data) (trace_of r) -> Fs.walk q seen = Fs.Ok (Fs.File data)) /\
  Fs.walk (dir ++ ["src"]) seen =
    Fs.Ok (Fs.Dir {[ "app.js" := Fs.File (JS.trim appJs) ]}).
Proof.
  intros r Hin. subst r.
  destruct (spawned_cases cwd npm argv t) as
    [(Hs & _ & _) | (name & t1 & Hn & Ht1 & Hw & _ & Hall & _)].
  - apply In_spawned in Hin. rewrite Hs in Hin. contradiction.
  - destruct (Hall dir seen status Hin) as (-> & -> & _). split.
    + intros q data Hq. apply In_written in Hq.
      destruct (written_artifacts cwd npm argv t) as [[Hnone _] | (name' & Hn' & Hwr)];
        rewrite ?Hnone, ?Hwr in Hq; [contradiction|].
      rewrite Hn in Hn'. injection Hn' as <-.
      unfold artifacts in Hq. cbn [In] in Hq.
      destruct Hq as [Hq | [Hq | [Hq | [Hq | []]]]]; injection Hq as <- <-;
        rewrite walk_app, Hw; reflexivity.
    + rewrite walk_app, Hw. reflexivity.
Qed.

(** The four files of the project [demo], read when the install starts. *)
Lemma written_files_read_back_witness :
  let p := resolve Sample.home "demo" in
  let seen := Fs.put p (projectTree "demo") Desk.disk in
  Fs.walk (p ++ ["src"; "app.js"]) seen = Fs.Ok (Fs.File (JS.trim appJs)) /\
  Fs.walk (p ++ ["src"]) seen =
    Fs.Ok (Fs.Dir {[ "app.js" := Fs.File (JS.trim appJs) ]}).
Proof.
  intros p seen.
  assert (Hin : In (EExec "npm install" p seen 0)
                   (trace_of (main Sample.home Sample.npm (Sample.argv "demo")
                                Desk.disk))).
  { apply (List.nth_error_In _ 8). vm_compute. reflexivity. }
  destruct (written_files_read_back Sample.home Sample.npm (Sample.argv "demo")
              Desk.disk p seen 0%Z Hin) as [Hfiles Hsrc].
  split; [|exact Hsrc].
  apply Hfiles. apply (List.nth_error_In _ 4). vm_compute. reflexivity.
Defined.

(** X7. The project name goes into [index.html] as it is, at one place:
    there are a fixed head, starting with the doctype and ending with
    the opening [<title>] tag, and a fixed tail, starting with the
    closing tag, such that in every run the document written is the
    head, the name and the tail.  Nothing of the name is escaped or
    trimmed, and the document is that much longer than the name. *)
Theorem document_is_name_in_frame :
  exists head tail : string,
    String.prefix "<!DOCTYPE html>" head = true /\
    textAfter "<title>" head = Some "" /\
    String.prefix "</title>" tail = true /\
    forall (cwd : path) (npm : string -> path -> Fs.node -> Fs.node * Z)
           (argv : list string) (t : Fs.node) (name html : string),
      skipn 2 argv !! 0%nat = Some name ->
      In (EWrite (resolve cwd name ++ ["index.html"]) html)
         (trace_of (main cwd npm argv t)) ->
      html = head +:+ name +:+ tail /\
      String.length html =
        (String.length head + String.length name + String.length tail)%nat.
Proof.
  let s := eval vm_compute in (indexHtml "") in
  let k := eval vm_compute in (default 0%nat (String.index 0 "</title>" s)) in
  let h := eval vm_compute in (String.substring 0 k s) in
  let t := eval vm_compute in (String.substring k (String.length s - k) s) in
  let h' := eval vm_compute in (JS.trimStart h) in
  let t' := eval vm_compute in (JS.trimEnd t) in
  assert (Hs : forall name, indexHtml name = h +:+ name +:+ t);
  [ intros name; unfold indexHtml, lines; cbn [join];
    rewrite !append_assoc; reflexivity
  | exists h', t';
    assert (Ht : forall name, JS.trim (indexHtml name) = h' +:+ name +:+ t');
    [ intros name; unfold JS.trim; rewrite Hs, !trimEnd_append;
      [ reflexivity
      | discriminate
      | rewrite trimEnd_append by discriminate;
        apply append_not_empty; discriminate ]
    | split; [reflexivity|]; split; [reflexivity|]; split; [reflexivity|];
      intros cwd npm argv t0 name html Hn Hin;
      assert (Hhtml : html = JS.trim (indexHtml name));
      [ destruct (written_at cwd npm argv t0 name ["index.html"] html Hn Hin)
          as [[_ E] | [[E _] | [[E _] | [E _]]]];
        [exact E | discriminate E | discriminate E | discriminate E]
      | rewrite Hhtml, Ht; split; [reflexivity|];
        rewrite !length_append; lia ] ] ].
Qed.

(** The head and the tail around the name [demo]. *)
Lemma document_is_name_in_frame_witness :
  exists head tail : string,
    String.prefix "<!DOCTYPE html>" head = true /\
    JS.trim (indexHtml "demo") = head +:+ "demo" +:+ tail /\
    String.length (JS.trim (indexHtml "demo")) =
      (String.length head + 4 + String.length tail)%nat.
Proof.
  destruct document_is_name_in_frame as (head & tail & Hhead & _ & _ & H).
  exists head, tail. split; [exact Hhead|].
  apply (H Sample.home Sample.npm (Sample.argv "demo") Sample.disk "demo"
           (JS.trim (indexHtml "demo")) eq_refl).
  apply (List.nth_error_In _ 3). vm_compute. reflexivity.
Defined.

(** X8. Whenever the generator writes [package.json], also in a run
    whose subprocess fails afterwards, the text is well-formed JSON that
    reads back as the manifest of the source with the name as given,
    whatever characters the name holds: quotes, backslashes and control
    characters are escaped. *)
Theorem manifest_reads_back (cwd : path)
        (npm : string -> path -> Fs.node -> Fs.node * Z)
        (argv : list string) (t : Fs.node) (name text : string) :
  skipn 2 argv !! 0%nat = Some name ->
  In (EWrite (resolve cwd name ++ ["package.json"]) text)
     (trace_of (main cwd npm argv t)) ->
  JSONRead.parse text = Some (pkg name) /\
  JSON.field "name" (pkg name) = Some (JSON.Str name) /\
  JSON.field "version" (pkg name) = Some (JSON.Str "1.0.0") /\
  JSON.field "type" (pkg name) = Some (JSON.Str "module") /\
  JSON.keys (pkg name) =
    ["name"; "version"; "type"; "scripts"; "dependencies"; "devDependencies"].
Proof.
  intros Hn Hin.
  destruct (written_at cwd npm argv t name ["package.json"] text Hn Hin)
    as [[E _] | [[E _] | [[E _] | [_ ->]]]]; try discriminate E.
  split; [apply parse_stringify|]. repeat split.
Qed.

(** A name with a quote, a backslash and a line feed, without network:
    the install fails, the manifest written reads back with this name. *)
Lemma manifest_reads_back_witness :
  let name := "my " +:+ q "app" +:+ String BACKSLASH (String LF "v2") in
  let text := JSON.stringify (pkg name) 2 in
  exitCode (outcome_of (main Sample.home Sample.npmOffline (Sample.argv name)
                          Sample.disk)) = 1%Z /\
  JSONRead.parse text = Some (pkg name) /\
  JSON.field "name" (pkg name) = Some (JSON.Str name).
Proof.
  intros name text. split; [vm_compute; reflexivity|].
  assert (Hin : In (EWrite (resolve Sample.home name ++ ["package.json"]) text)
                   (trace_of (main Sample.home Sample.npmOffline (Sample.argv name)
                                Sample.disk))).
  { apply (List.nth_error_In _ 6). vm_compute. reflexivity. }
  destruct (manifest_reads_back Sample.home Sample.npmOffline (Sample.argv name)
              Sample.disk name text eq_refl Hin) as (H1 & H2 & _).
  split; [exact H1 | exact H2].
Defined.

(** X9. A run starts at most two subprocesses, [npm install] and then
    [npm run build], each once and each in the project directory, which
    exists at that time; the build is started exactly when the install
    has exited with status 0. *)
Theorem subprocesses_in_project_directory (cwd : path)
        (npm : string -> path -> Fs.node -> Fs.node * Z)
        (argv : list string) (t : Fs.node) :
  let r := main cwd npm argv t in
  spawned (trace_of r) = [] \/
  exists name : string,
    skipn 2 argv !! 0%nat = Some name /\
    let p := resolve cwd name in
    (forall (cmd : string) (dir : path) (seen : Fs.node) (status : Z),
       In (EExec cmd dir seen status) (trace_of r) ->
       dir = p /\ (cmd = "npm install" -> Fs.exists_ p seen = true)) /\
    (spawned (trace_of r) = [("npm install", p)] \/
     spawned (trace_of r) = [("npm install", p); ("npm run build", p)]) /\
    (In ("npm run build", p) (spawned (trace_of r)) <->
     exists seen : Fs.node, In (EExec "npm install" p seen 0) (trace_of r)).
Proof.
  intros r. subst r.
  destruct (spawned_cases cwd npm argv t) as
    [(Hs & _ & _) | (name & t1 & Hn & Ht1 & Hw & Hin & Hall & Hsp)];
    [left; exact Hs|].
  right. exists name. split; [exact Hn|]. cbn zeta in *.
  set (p := resolve cwd name) in *.
  set (tr := trace_of (main cwd npm argv t)) in *.
  assert (Hdir : forall cmd dir, In (cmd, dir) (spawned tr) -> dir = p).
  { intros cmd dir H.
    destruct Hsp as [[_ E] | [_ E]]; rewrite E in H; cbn [In] in H;
      repeat (destruct H as [H | H]; [injection H as _ <-; reflexivity|]);
      contradiction. }
  split; [|split].
  - intros cmd dir seen status H. split.
    + exact (Hdir cmd dir (In_spawned tr cmd dir seen status H)).
    + intros ->. destruct (Hall dir seen status H) as (_ & -> & _).
      unfold Fs.exists_. rewrite Hw. reflexivity.
  - destruct Hsp as [[_ E] | [_ E]]; auto.
  - split.
    + intros H. destruct Hsp as [[_ E] | [S0 E]]; rewrite E in H; cbn [In] in H.
      * destruct H as [H | []]. discriminate H.
      * exists t1. rewrite <- S0. exact Hin.
    + intros [seen H]. destruct (Hall p seen 0%Z H) as (_ & _ & S0).
      destruct Hsp as [[Hne _] | [_ E]]; [congruence|].
      rewrite E. cbn [In]. auto.
Qed.

(** The two subprocesses of the project [demo], both in [/home/u/demo]. *)
Lemma subprocesses_in_project_directory_witness :
  let r := main Sample.home Sample.npm (Sample.argv "demo") Sample.disk in
  spawned (trace_of r) =
    [ ("npm install", ["home"; "u"; "demo"]);
      ("npm run build", ["home"; "u"; "demo"]) ] /\
  exists name : string,
    skipn 2 (Sample.argv "demo") !! 0%nat = Some name /\
    (spawned (trace_of r) = [("npm install", resolve Sample.home name)] \/
     spawned (trace_of r) =
       [ ("npm install", resolve Sample.home name);
         ("npm run build", resolve Sample.home name) ]).
Proof.
  intros r. split; [vm_compute; reflexivity|].
  destruct (subprocesses_in_project_directory Sample.home Sample.npm
              (Sample.argv "demo") Sample.disk) as [H | (name & Hn & _ & H & _)].
  - exfalso. revert H. vm_compute. discriminate.
  - exists name. split; [exact Hn | exact H].
Defined.



(** X11. The exit status of the script is 0 or 1, and it is 0 exactly
    when the script has run to its end: a non-zero status of a
    subprocess is turned into 1, whatever it was. *)
Theorem exit_status_zero_or_one (cwd : path)
        (npm : string -> path -> Fs.node -> Fs.node * Z)
        (argv : list string) (t : Fs.node) :
  let r := main cwd npm argv t in
  (exitCode (outcome_of r) = 0%Z \/ exitCode (outcome_of r) = 1%Z) /\
  (exitCode (outcome_of r) = 0%Z <-> outcome_of r = Return tt) /\
  (forall (cmd : string) (dir : path) (seen : Fs.node) (status : Z),
     In (EExec cmd dir seen status) (trace_of r) -> status <> 0%Z ->
     exitCode (outcome_of r) = 1%Z).
Proof.
  intros r. subst r. run_shapes cwd npm argv t;
    cbn [outcome_of trace_of exitCode]; unfold emission, usage, report;
    cbn [app In].
  all: split; [auto|]. all: split; [split; intros H; first [discriminate H | reflexivity]|].
  all: intros cmd dir seen status Hin Hst; try reflexivity.
  repeat (destruct Hin as [Hin | Hin]; [try discriminate Hin|]);
    try contradiction; injection Hin as <- <- <- <-; contradiction.
Qed.

(** The build of the project [demo] exits with status 2: the script
    exits with status 1. *)
Lemma exit_status_zero_or_one_witness :
  exitCode (outcome_of (main Sample.home Sample.npmBrokenBuild
                          (Sample.argv "demo") Sample.disk)) = 1%Z.
Proof.
  destruct (exit_status_zero_or_one Sample.home Sample.npmBrokenBuild
              (Sample.argv "demo") Sample.disk) as (_ & _ & H).
  apply (H "npm run build" (resolve Sample.home "demo")
           (fst (Sample.npmBrokenBuild "npm install" (resolve Sample.home "demo")
                   (Fs.put (resolve Sample.home "demo") (projectTree "demo")
                      Sample.disk)))
           2%Z).
  - apply (List.nth_error_In _ 10). vm_compute. reflexivity.
  - discriminate.
Defined.
